(** * Dataset generation for fine-tuning: batching, prompt formatting, artifact push

    A shallow embedding of [course/module-3/finetuning/generate_data.py]:
    the prompt formatter [DataFormatter], and the orchestrator
    [DatasetGenerator] with its three methods [fetch_all_cleaned_content],
    [generate_training_data] and [push_to_comet].

    Python integers are [Z], Python [str] is [string], a [list] is a Rocq
    list indexed through [Py.getitem] (which raises [IndexError] out of
    range), a [dict] is an insertion-ordered association list, and the
    methods run in a state-and-exception monad over the [World] the script
    talks to (vector store, completion service, file system, experiment
    tracker, log). *)

From Stdlib Require Import Ascii.
From stdpp Require Import base numbers list strings pretty gmap.

Local Open Scope string_scope.
Local Open Scope list_scope.
Local Open Scope Z_scope.

(** ** Python values and primitives *)

Module Py.

(** Exceptions the script can meet.  [External] stands for anything raised
    inside a collaborator (HTTP failure, JSON decoding, file system ...);
    every constructor is a subclass of Python's [Exception]. *)
Inductive exn : Type :=
| IndexError (msg : string)
| KeyError (key : string)
| NameError (name : string)
| ValueError (msg : string)
| External (cls msg : string).

(** [str(e)] as it appears in the f-string of the error log. *)
Definition exn_str (e : exn) : string :=
  match e with
  | IndexError msg => msg
  | KeyError key => "'" +:+ key +:+ "'"
  | NameError name => "name '" +:+ name +:+ "' is not defined"
  | ValueError msg => msg
  | External _ msg => msg
  end.

(** The line feed written [\n] in the source. *)
Definition nl : string := String "010"%char EmptyString.

(** [len(l)] *)
Definition len {A} (l : list A) : Z := Z.of_nat (length l).

(** The iteration of a [range] object: yield [i] while it has not reached
    [stop], then advance by [step].  [fuel] bounds the number of rounds. *)
Fixpoint range_loop (fuel : nat) (i stop step : Z) : list Z :=
  match fuel with
  | O => []
  | S fuel' =>
      if (if 0 <? step then i <? stop else stop <? i)
      then i :: range_loop fuel' (i + step) stop step
      else []
  end.

(** [range(start, stop, step)]; a zero step is a [ValueError].  The
    distance between the bounds is enough fuel, whatever the step. *)
Definition range (start stop step : Z) : exn + list Z :=
  if step =? 0 then inl (ValueError "range() arg 3 must not be zero")
  else inr (range_loop (Z.to_nat (Z.abs (stop - start))) start stop step).

(** How a slice bound is normalised: a negative bound counts from the end,
    and every bound is clamped to the list. *)
Definition clamp_index (n k : Z) : Z :=
  if k <? 0 then Z.max 0 (k + n) else Z.min k n.

(** [l[lo:hi]] *)
Definition slice {A} (l : list A) (lo hi : Z) : list A :=
  let lo' := clamp_index (len l) lo in
  let hi' := clamp_index (len l) hi in
  take (Z.to_nat (hi' - lo')) (drop (Z.to_nat lo') l).

(** The position an index denotes, when it denotes one. *)
Definition index_of {A} (l : list A) (k : Z) : option nat :=
  let k' := if k <? 0 then k + len l else k in
  if (0 <=? k') && (k' <? len l) then Some (Z.to_nat k') else None.

Definition index_error : exn := IndexError "list index out of range".

(** [l[k]] *)
Definition getitem {A} (l : list A) (k : Z) : exn + A :=
  match index_of l k with
  | Some i => match l !! i with Some x => inr x | None => inl index_error end
  | None => inl index_error
  end.

(** The values the script handles: text, or [None] (a JSON [null]). *)
Inductive value : Type :=
| VNone
| VStr (s : string).

(** [str(v)] *)
Definition str (v : value) : string :=
  match v with
  | VNone => "None"
  | VStr s => s
  end.

(** [bool(v)], the test of [if v:] *)
Definition truthy (v : value) : bool :=
  match v with
  | VNone => false
  | VStr s => negb (String.eqb s "")
  end.

(** A [dict] with string keys, in insertion order. *)
Definition dict : Type := list (string * value).

(** [d[k] = v]: an existing key keeps its place, a new key goes last. *)
Fixpoint dict_setitem (d : dict) (k : string) (v : value) : dict :=
  match d with
  | [] => [(k, v)]
  | (k', v') :: d' =>
      if String.eqb k' k then (k', v) :: d'
      else (k', v') :: dict_setitem d' k v
  end.

End Py.

(** ** The prompt formatter *)

Definition data_type : string := "posts".

Definition USER_PROMPT : string :=
  ("I will give you batches of contents of " +:+ data_type
     +:+ ". Please generate me exactly 1 instruction for each of them. The "
     +:+ data_type +:+ " text ")
  +:+ "for which you have to generate the instructions is under Content number x lines. Please structure the answer in json format,"
  +:+ "ready to be loaded by json.loads(), a list of objects only with fields called instruction and content. For the content field, copy the number of the content only!."
  +:+ ("Please do not add any extra characters and make sure it is a list with objects in valid json format!" +:+ Py.nl).

Module DataFormatter.

(** The body of the [for index, data_point in enumerate(data_points)] loop
    of [format_data], with the accumulator [text] and the counter [index]
    of [enumerate] made explicit. *)
Fixpoint format_data_loop (text : string) (index : Z) (data_points : list Py.value)
    (is_example : bool) (start_index : Z) : string :=
  match data_points with
  | [] => text
  | data_point :: rest =>
      let text :=
        if negb is_example
        then text +:+ ("Content number " +:+ pretty (start_index + index) +:+ Py.nl)
        else text in
      let text := text +:+ (Py.str data_point +:+ Py.nl) in
      format_data_loop text (index + 1) rest is_example start_index
  end.

Definition format_data (data_points : list Py.value) (is_example : bool)
    (start_index : Z) : string :=
  format_data_loop "" 0 data_points is_example start_index.

Definition format_batch (context_msg : string) (data_points : list Py.value)
    (start_index : Z) : string :=
  let delimiter_msg := context_msg in
  let delimiter_msg := delimiter_msg +:+ format_data data_points false start_index in
  delimiter_msg.

Definition format_prompt (inference_posts : list Py.value) (start_index : Z) : string :=
  let initial_prompt := USER_PROMPT in
  let initial_prompt :=
    initial_prompt
      +:+ ("You must generate exactly a list of " +:+ pretty (Py.len inference_posts)
             +:+ " json objects, using the contents provided under CONTENTS FOR GENERATION"
             +:+ Py.nl) in
  let initial_prompt :=
    initial_prompt
      +:+ format_batch (Py.nl +:+ "CONTENTS FOR GENERATION: " +:+ Py.nl)
            inference_posts start_index in
  initial_prompt.

End DataFormatter.

(** ** Collaborators *)

(** A record of the vector store: the script reads [point.payload]. *)
Record Point : Type := mkPoint {
  point_id : Z;
  payload : gmap string Py.value;
}.

(** The vector store as the script sees it: what
    [client.scroll(collection_name=..., limit=...)] answers, a page of
    records and the offset of the next page when there is one, or an
    exception. *)
Definition ContentStore : Type :=
  string → Z → Py.exn + (list Point * option Z).

(** What can go wrong in the world while [push_to_comet] runs: for each
    external operation, the exception it raises, if any.  A failed
    [json.dump] leaves the first [n] bytes of the serialisation behind. *)
Record Faults : Type := mkFaults {
  experiment_fault : option Py.exn;
  open_fault : option Py.exn;
  dump_fault : option (nat * Py.exn);
  artifact_fault : option Py.exn;
  add_fault : option Py.exn;
  log_artifact_fault : option Py.exn;
  end_fault : option Py.exn;
}.

Definition no_faults : Faults := mkFaults None None None None None None None.

Inductive Level : Type := INFO | ERROR.

(** The duck type of [data_formatter]: an object with a [format_prompt]
    method. *)
Record Formatter : Type := mkFormatter {
  format_prompt : list Py.value → Z → string;
}.

(** [DataFormatter()] *)
Definition DataFormatter_new : Formatter := mkFormatter DataFormatter.format_prompt.

(** The module-level names that a method body can resolve.  Only
    [data_formatter] matters here: it is bound by the [__main__] block and
    nowhere else. *)
Record Globals : Type := mkGlobals {
  g_data_formatter : option Formatter;
}.

(** The globals of the module after its top level has run under the given
    [__name__]. *)
Definition module_globals (name__ : string) : Globals :=
  if String.eqb name__ "__main__" then mkGlobals (Some DataFormatter_new)
  else mkGlobals None.

Section Generator.

(** The state of the hosted completion service, and the serialisation done
    by [json.dump]. *)
Context {C : Type}.
Variable json_dumps : list Py.dict → string.

(** Everything outside the process that the script reads or changes. *)
Record World : Type := mkWorld {
  store : ContentStore;
  scrolls : list (string * Z);
  client : C;
  prompts : list string;
  files : gmap string string;
  faults : Faults;
  artifacts : list (string * list string);
  ended : bool;
  logs : list (Level * string);
}.

(** [GptCommunicator]: its [send_prompt] answers a prompt with a parsed
    JSON array of objects or raises, and may change the service's state.
    The objects of one answer, and of different answers, are distinct
    objects (they come out of a JSON parser), so updating one in place
    touches no other. *)
Record GptCommunicator : Type := mkGptCommunicator {
  send_prompt : C → string → (Py.exn + list Py.dict) * C;
}.

Record DatasetGenerator : Type := mkDatasetGenerator {
  file_handler : unit;
  api_communicator : GptCommunicator;
  data_formatter : Formatter;
}.

(** *** The monad of method bodies: state [World], exceptions [Py.exn] *)

Definition M (A : Type) : Type := World → (Py.exn + A) * World.

Definition ret {A} (x : A) : M A := λ w, (inr x, w).

Definition raise {A} (e : Py.exn) : M A := λ w, (inl e, w).

Definition bind {A B} (m : M A) (k : A → M B) : M B :=
  λ w, match m w with
       | (inr x, w') => k x w'
       | (inl e, w') => (inl e, w')
       end.

(** A pure operation that may raise. *)
Definition lift {A} (r : Py.exn + A) : M A :=
  match r with
  | inl e => raise e
  | inr x => ret x
  end.

(** [try: body except Exception as e: handler e] *)
Definition try_except {A} (body : M A) (handler : Py.exn → M A) : M A :=
  λ w, match body w with
       | (inl e, w') => handler e w'
       | r => r
       end.

Notation "'do' x <- m ; k" := (bind m (λ x, k))
  (at level 10, x name, m at level 100, k at level 200).
Notation "m1 >> m2" := (bind m1 (λ _, m2))
  (at level 100, m2 at level 200, right associativity).

(** [for x in xs: s = body(s, x)] with the loop-carried variables [s]. *)
Fixpoint for_ {A S} (xs : list A) (s : S) (body : S → A → M S) : M S :=
  match xs with
  | [] => ret s
  | x :: xs' => do s' <- body s x; for_ xs' s' body
  end.

Definition logging (lvl : Level) (msg : string) : M unit :=
  λ w, (inr tt,
        mkWorld (store w) (scrolls w) (client w) (prompts w) (files w)
          (faults w) (artifacts w) (ended w) (logs w ++ [(lvl, msg)])).

(** Raise the fault planned for an external operation, if there is one. *)
Definition may_fail (f : Faults → option Py.exn) : M unit :=
  λ w, match f (faults w) with
       | Some e => (inl e, w)
       | None => (inr tt, w)
       end.

(** *** ContentStore *)

(** [client.scroll(collection_name=..., limit=...)]: the call is recorded
    and the store answers. *)
Definition scroll (collection_name : string) (limit : Z) :
    M (list Point * option Z) :=
  λ w,
    (store w collection_name limit,
     mkWorld (store w) (scrolls w ++ [(collection_name, limit)])
       (client w) (prompts w) (files w) (faults w) (artifacts w)
       (ended w) (logs w)).

(** *** CompletionClient *)

(** One call of [api_communicator.send_prompt]: the prompt is recorded, the
    service moves on, and its answer or its exception comes back. *)
Definition call_send_prompt (api : GptCommunicator) (prompt : string) :
    M (list Py.dict) :=
  λ w,
    let '(r, c') := send_prompt api (client w) prompt in
    (r, mkWorld (store w) (scrolls w) c' (prompts w ++ [prompt]) (files w)
          (faults w) (artifacts w) (ended w) (logs w)).

(** *** ArtifactSink and the file system *)

(** [Experiment(api_key=..., project_name=..., workspace=...)] *)
Definition Experiment_new : M unit := may_fail experiment_fault.

(** [with open(file_name, "w") as f: json.dump(data, f)]: opening
    truncates the file, dumping fills it. *)
Definition open_and_dump (file_name : string) (data : list Py.dict) : M unit :=
  λ w,
    let put (s : string) :=
      mkWorld (store w) (scrolls w) (client w) (prompts w)
        (<[file_name := s]> (files w)) (faults w) (artifacts w) (ended w)
        (logs w) in
    match open_fault (faults w) with
    | Some e => (inl e, w)
    | None =>
        match dump_fault (faults w) with
        | Some (n, e) =>
            (inl e, put (String.substring 0 n (json_dumps data)))
        | None => (inr tt, put (json_dumps data))
        end
    end.

(** [Artifact(name)], as the pair of its name and its files. *)
Definition Artifact_new (name : string) : M (string * list string) :=
  may_fail artifact_fault >> ret (name, []).

(** [artifact.add(file_name)] *)
Definition Artifact_add (artifact : string * list string) (file_name : string) :
    M (string * list string) :=
  may_fail add_fault >> ret (artifact.1, artifact.2 ++ [file_name]).

(** [experiment.log_artifact(artifact)] *)
Definition log_artifact (artifact : string * list string) : M unit :=
  may_fail log_artifact_fault >>
  λ w, (inr tt,
        mkWorld (store w) (scrolls w) (client w) (prompts w) (files w)
          (faults w) (artifacts w ++ [artifact]) (ended w) (logs w)).

(** [experiment.end()] *)
Definition experiment_end : M unit :=
  may_fail end_fault >>
  λ w, (inr tt,
        mkWorld (store w) (scrolls w) (client w) (prompts w) (files w)
          (faults w) (artifacts w) true (logs w)).

(** *** DatasetGenerator *)

Definition push_to_comet (data : list Py.dict) (collection_name : string) :
    M unit :=
  try_except
    (logging INFO ("Starting to push data to Comet: " +:+ collection_name) >>
     Experiment_new >>
     let file_name := collection_name +:+ ".json" in
     logging INFO ("Writing data to file: " +:+ file_name) >>
     open_and_dump file_name data >>
     logging INFO "Data written to file successfully" >>
     do artifact <- Artifact_new collection_name;
     do artifact <- Artifact_add artifact file_name;
     logging INFO ("Artifact created and file added: " +:+ file_name) >>
     log_artifact artifact >>
     experiment_end >>
     logging INFO "Data pushed to Comet successfully and experiment ended")
    (λ e, logging ERROR ("Failed to push data to Comet: " +:+ Py.exn_str e)).

(** One round of [for point in points]. *)
Definition fetch_step (all_cleaned_contents : list Py.value) (point : Point) :
    M (list Py.value) :=
  match payload point !! "cleaned_content" with
  | None => raise (Py.KeyError "cleaned_content")
  | Some cleaned_content =>
      if Py.truthy cleaned_content
      then ret (all_cleaned_contents ++ [cleaned_content])
      else ret all_cleaned_contents
  end.

Definition fetch_all_cleaned_content (collection_name : string) :
    M (list Py.value) :=
  let all_cleaned_contents := [] in
  do scroll_response <- scroll collection_name 10000;
  let points := scroll_response.1 in
  for_ points all_cleaned_contents fetch_step.

(** Resolving the free name [data_formatter] in a method body. *)
Definition load_data_formatter (g : Globals) : M Formatter :=
  match g_data_formatter g with
  | Some f => ret f
  | None => raise (Py.NameError "data_formatter")
  end.

(** [response[j]["content"] = all_contents[j]]: the right-hand side is
    evaluated first, then the object at [response[j]] is updated in place. *)
Definition overwrite_content (all_contents : list Py.value)
    (response : list Py.dict) (j : Z) : M (list Py.dict) :=
  do v <- lift (Py.getitem all_contents j);
  do d <- lift (Py.getitem response j);
  match Py.index_of response j with
  | Some p => ret (<[p := Py.dict_setitem d "content" v]> response)
  | None => raise Py.index_error
  end.

(** The body of [for i in range(0, len(all_contents), batch_size)]. *)
Definition batch_step (self : DatasetGenerator) (g : Globals)
    (all_contents : list Py.value) (batch_size : Z)
    (response : list Py.dict) (i : Z) : M (list Py.dict) :=
  let batch := Py.slice all_contents i (i + batch_size) in
  do formatter <- load_data_formatter g;
  let initial_prompt := format_prompt formatter batch i in
  do answer <- call_send_prompt (api_communicator self) initial_prompt;
  let response := response ++ answer in
  do js <- lift (Py.range i (i + batch_size) 1);
  for_ js response (overwrite_content all_contents).

(** Lines 64 to 70 of [generate_training_data]: the list [response] handed
    to [push_to_comet]. *)
Definition build_response (self : DatasetGenerator) (g : Globals)
    (all_contents : list Py.value) (batch_size : Z) : M (list Py.dict) :=
  let response := [] in
  do starts <- lift (Py.range 0 (Py.len all_contents) batch_size);
  for_ starts response (batch_step self g all_contents batch_size).

Definition generate_training_data (self : DatasetGenerator) (g : Globals)
    (collection_name : string) (batch_size : Z) : M unit :=
  do all_contents <- fetch_all_cleaned_content collection_name;
  do response <- build_response self g all_contents batch_size;
  push_to_comet response collection_name.

End Generator.

(** ** The script *)

Section Script.

Context {C : Type}.
Variable json_dumps : list Py.dict → string.

Definition collection_names : list string :=
  ["cleaned_articles"; "cleaned_posts"].

(** The [__main__] block, given the communicator it constructs: the
    formatter bound to the module-level name is the one handed to the
    generator, and every collection is processed with batches of one. *)
Definition main (api_communicator : @GptCommunicator C) : @M C () :=
  let file_handler := () in
  let data_formatter := DataFormatter_new in
  let dataset_generator :=
    mkDatasetGenerator file_handler api_communicator data_formatter in
  for_ collection_names ()
    (λ _ collection,
       generate_training_data json_dumps dataset_generator
         (mkGlobals (Some data_formatter)) collection 1).

End Script.

(** ** The prompts for fine-tuning ([module-4]) *)

(** [d[k]] on a [dict]: a missing key is a [KeyError]. *)
Fixpoint dict_getitem (d : Py.dict) (k : string) : Py.exn + Py.value :=
  match d with
  | [] => inl (Py.KeyError k)
  | (k', v') :: d' => if String.eqb k' k then inr v' else dict_getitem d' k
  end.

(** What a tokenizer returns: a [dict] from field names ([input_ids],
    [attention_mask], ...) to lists of numbers. *)
Module Encoding.

Definition t : Type := list (string * list Z).

Fixpoint getitem (d : t) (k : string) : Py.exn + list Z :=
  match d with
  | [] => inl (Py.KeyError k)
  | (k', v') :: d' => if String.eqb k' k then inr v' else getitem d' k
  end.

Fixpoint setitem (d : t) (k : string) (v : list Z) : t :=
  match d with
  | [] => [(k, v)]
  | (k', v') :: d' =>
      if String.eqb k' k then (k', v) :: d'
      else (k', v') :: setitem d' k v
  end.

End Encoding.

(** [self.tokenizer(prompt, padding="max_length", max_length=2300,
    truncation=True)]: the tokenizer of the pretrained model. *)
Definition Tokenizer : Type := string → Py.exn + Encoding.t.

(** [CopywriterModel] of [module-4/finetuning/model.py]. *)
Module FinetuningModel.

Definition tokenize (tokenizer : Tokenizer) (prompt : string) :
    Py.exn + Encoding.t :=
  match tokenizer prompt with
  | inl e => inl e
  | inr result =>
      match Encoding.getitem result "input_ids" with
      | inl e => inl e
      | inr input_ids => inr (Encoding.setitem result "labels" input_ids)
      end
  end.

Definition generate_prompt (tokenizer : Tokenizer) (sample : Py.dict) :
    Py.exn + Encoding.t :=
  match dict_getitem sample "instruction" with
  | inl e => inl e
  | inr instruction =>
      match dict_getitem sample "content" with
      | inl e => inl e
      | inr content =>
          let full_prompt :=
            "<s>[INST]" +:+ Py.str instruction +:+ Py.nl
              +:+ "        [/INST] " +:+ Py.str content +:+ "</s>" in
          let result := tokenize tokenizer full_prompt in
          result
      end
  end.

End FinetuningModel.

(** [CopywriterModel] of [module-4/main/model.py]: the same, reading the
    field [post]. *)
Module MainModel.

Definition tokenize (tokenizer : Tokenizer) (prompt : string) :
    Py.exn + Encoding.t :=
  match tokenizer prompt with
  | inl e => inl e
  | inr result =>
      match Encoding.getitem result "input_ids" with
      | inl e => inl e
      | inr input_ids => inr (Encoding.setitem result "labels" input_ids)
      end
  end.

Definition generate_prompt (tokenizer : Tokenizer) (sample : Py.dict) :
    Py.exn + Encoding.t :=
  match dict_getitem sample "instruction" with
  | inl e => inl e
  | inr instruction =>
      match dict_getitem sample "post" with
      | inl e => inl e
      | inr post =>
          let full_prompt :=
            "<s>[INST]" +:+ Py.str instruction +:+ Py.nl
              +:+ "        [/INST] " +:+ Py.str post +:+ "</s>" in
          let result := tokenize tokenizer full_prompt in
          result
      end
  end.

End MainModel.

(** [s.split(sep)] for a separator of one character. *)
Fixpoint str_split (sep : ascii) (s : string) : list string :=
  match s with
  | EmptyString => [""]
  | String c s' =>
      if Ascii.eqb c sep then "" :: str_split sep s'
      else match str_split sep s' with
           | [] => [String c ""]
           | piece :: pieces => String c piece :: pieces
           end
  end.

(** [sep in s] for a separator of one character. *)
Fixpoint str_contains (sep : ascii) (s : string) : bool :=
  match s with
  | EmptyString => false
  | String c s' => Ascii.eqb c sep || str_contains sep s'
  end.

(** * Vocabulary of the statements *)

(** The start indices of the batches: [0, b, 2b, ...] below [n]. *)
Definition batch_starts (n b : Z) : list Z :=
  (λ k : nat, Z.of_nat k * b) <$> seq 0 (Z.to_nat ((n + b - 1) / b)).

(** The concatenation of a list of pieces of text. *)
Definition join (pieces : list string) : string :=
  foldr String.append "" pieces.

(** The marker line that numbers an item of the batch. *)
Definition marker (n : Z) : string :=
  "Content number " +:+ pretty n +:+ Py.nl.

(** What the prompt holds for the item at offset [k] of the batch: its
    marker, then its text on a line of its own. *)
Definition item_block (start_index : Z) (k : nat) (item : Py.value) : string :=
  marker (start_index + Z.of_nat k) +:+ (Py.str item +:+ Py.nl).

(** The sentence of the prompt that states how many objects are expected. *)
Definition count_line (n : Z) : string :=
  "You must generate exactly a list of " +:+ pretty n
    +:+ " json objects, using the contents provided under CONTENTS FOR GENERATION"
    +:+ Py.nl.

Definition contents_header : string :=
  Py.nl +:+ "CONTENTS FOR GENERATION: " +:+ Py.nl.

(** The line of a marker, without its line feed. *)
Definition marker_line (n : Z) : string := "Content number " +:+ pretty n.

(** The lines that [format_data] writes for a batch: for each item, the line
    of its marker and the line of its text. *)
Definition data_lines (start_index : Z) (data_points : list Py.value) :
    list string :=
  concat (imap (λ k v, [marker_line (start_index + Z.of_nat k); Py.str v])
            data_points).

(** An answer of the completion service after the overwrite of line 70:
    each object has its [content] replaced by the record at its position. *)
Definition overwritten (answer : list Py.dict) (records : list Py.value) :
    list Py.dict :=
  zip_with (λ d v, Py.dict_setitem d "content" v) answer records.

(** The first fault that a run of [push_to_comet] meets, in the order the
    external operations are attempted. *)
Definition first_fault (f : Faults) : option Py.exn :=
  match experiment_fault f with
  | Some e => Some e
  | None =>
  match open_fault f with
  | Some e => Some e
  | None =>
  match dump_fault f with
  | Some (_, e) => Some e
  | None =>
  match artifact_fault f with
  | Some e => Some e
  | None =>
  match add_fault f with
  | Some e => Some e
  | None =>
  match log_artifact_fault f with
  | Some e => Some e
  | None => end_fault f
  end end end end end end.

(** Nothing goes wrong up to and including the writing of the local file;
    the operations on the remote experiment that follow may still fail. *)
Definition file_written (f : Faults) : Prop :=
  experiment_fault f = None ∧ open_fault f = None ∧ dump_fault f = None.

(** The contents a page of records yields when every record with an empty
    or missing [cleaned_content] is dropped. *)
Definition kept_contents (points : list Point) : list Py.value :=
  omap (λ point,
          match payload point !! "cleaned_content" with
          | Some v => if Py.truthy v then Some v else None
          | None => None
          end) points.

Section Vocabulary.

Context {C : Type}.

(** The world after prompts [ps] were sent and the service moved to [c']. *)
Definition sent (w : @World C) (c' : C) (ps : list string) : World :=
  mkWorld (store w) (scrolls w) c' (prompts w ++ ps) (files w) (faults w)
    (artifacts w) (ended w) (logs w).

(** The world after one more [scroll] call. *)
Definition scrolled (w : @World C) (collection_name : string) (limit : Z) : World :=
  mkWorld (store w) (scrolls w ++ [(collection_name, limit)]) (client w)
    (prompts w) (files w) (faults w) (artifacts w) (ended w) (logs w).

(** The answers of the service to a sequence of prompts sent from state [c],
    when none of the calls raises, and the state it ends in. *)
Fixpoint replay (api : @GptCommunicator C) (c : C) (ps : list string) :
    option (list (list Py.dict) * C) :=
  match ps with
  | [] => Some ([], c)
  | p :: ps' =>
      match send_prompt api c p with
      | (inr answer, c1) =>
          match replay api c1 ps' with
          | Some (answers, c') => Some (answer :: answers, c')
          | None => None
          end
      | (inl _, _) => None
      end
  end.

(** The prompt for the batch that starts at [i]. *)
Definition batch_prompt (f : Formatter) (all_contents : list Py.value)
    (batch_size i : Z) : string :=
  format_prompt f (Py.slice all_contents i (i + batch_size)) i.

(** The prompts for all the batches, in order. *)
Definition batch_prompts (f : Formatter) (all_contents : list Py.value)
    (batch_size : Z) : list string :=
  batch_prompt f all_contents batch_size
    <$> batch_starts (Py.len all_contents) batch_size.

(** A service that plays back a script of answers and failures, whatever the
    prompt, and fails once the script is over. *)
Definition scripted : @GptCommunicator (list (Py.exn + list Py.dict)) :=
  mkGptCommunicator
    (λ c _, match c with
            | [] => (inl (Py.External "StopIteration" ""), [])
            | r :: c' => (r, c')
            end).

(** A computation leaves the observation [f] of the world as it found it. *)
Definition preserves {X A} (f : @World C → X) (m : M A) : Prop :=
  ∀ w, f (m w).2 = f w.

(** Two runs of a computation from worlds related by [R] end with the same
    result, be it a value or an exception, in worlds related by [R]. *)
Definition respects {A} (R : relation (@World C)) (m : M A) : Prop :=
  ∀ w1 w2, R w1 w2 → (m w1).1 = (m w2).1 ∧ R (m w1).2 (m w2).2.

(** What two runs over the same snapshot of a collection, with the service
    in the same state, have in common as they proceed: the snapshot, the
    state of the service, and the prompts sent since the runs began, when
    [P1] and [P2] had been sent before. *)
Definition in_step (collection_name : string) (P1 P2 : list string)
    (w1 w2 : @World C) : Prop :=
  (∀ limit, store w1 collection_name limit = store w2 collection_name limit)
  ∧ client w1 = client w2
  ∧ ∃ ps, prompts w1 = P1 ++ ps ∧ prompts w2 = P2 ++ ps.

End Vocabulary.


(** ** Worlds of the examples *)

(** A store that holds the given collections and pages each of them in
    stored order; a collection it does not hold is an error. *)
Definition paged (collections : gmap string (list Point)) : ContentStore :=
  λ collection_name limit,
    match collections !! collection_name with
    | None => inl (Py.External "UnexpectedResponse" "collection not found")
    | Some points =>
        inr (take (Z.to_nat limit) points,
             point_id <$> points !! Z.to_nat limit)
    end.

(** A store with one collection of three records, the second of which has
    an empty text. *)
Definition three_posts : gmap string (list Point) :=
  {[ "cleaned_posts" :=
       [ mkPoint 1 {[ "cleaned_content" := Py.VStr "A" ]};
         mkPoint 2 {[ "cleaned_content" := Py.VStr "" ]};
         mkPoint 3 {[ "cleaned_content" := Py.VStr "C" ]} ] ]}.

(** A store whose only record has no [cleaned_content] entry. *)
Definition post_without_content : gmap string (list Point) :=
  {[ "cleaned_posts" := [ mkPoint 1 ∅ ] ]}.

(** The scenario of the specification: a collection of three records
    ["A"], ["B"], ["C"], and a service that answers the first prompt with
    two objects and the second with one. *)
Definition scenario_contents : list Py.value :=
  [Py.VStr "A"; Py.VStr "B"; Py.VStr "C"].

Definition scenario_store : gmap string (list Point) :=
  {[ "cleaned_posts" :=
       [ mkPoint 1 {[ "cleaned_content" := Py.VStr "A" ]};
         mkPoint 2 {[ "cleaned_content" := Py.VStr "B" ]};
         mkPoint 3 {[ "cleaned_content" := Py.VStr "C" ]} ] ]}.

Definition scenario_answers : list (Py.exn + list Py.dict) :=
  [ inr [ [("instruction", Py.VStr "i1"); ("content", Py.VStr "0")];
          [("instruction", Py.VStr "i2"); ("content", Py.VStr "1")] ];
    inr [ [("instruction", Py.VStr "i3"); ("content", Py.VStr "2")] ] ].

(** The dataset that the specification expects for the scenario. *)
Definition scenario_dataset : list Py.dict :=
  [ [("instruction", Py.VStr "i1"); ("content", Py.VStr "A")];
    [("instruction", Py.VStr "i2"); ("content", Py.VStr "B")];
    [("instruction", Py.VStr "i3"); ("content", Py.VStr "C")] ].

(** A world with the given store and script of answers, and nothing else. *)
Definition script_world (st : gmap string (list Point))
    (answers : list (Py.exn + list Py.dict)) :
    @World (list (Py.exn + list Py.dict)) :=
  mkWorld (paged st) [] answers [] ∅ no_faults [] false [].

(** The generator of the [__main__] block, talking to a scripted service. *)
Definition script_generator : @DatasetGenerator (list (Py.exn + list Py.dict)) :=
  mkDatasetGenerator () scripted DataFormatter_new.

(** The upload of the artifact fails, and nothing else. *)
Definition upload_fails : Faults :=
  mkFaults None None None None None
    (Some (Py.External "ConnectionError" "upload failed")) None.

(** Answers with one object each, for batches of one record. *)
Definition scenario_unit_answers : list (Py.exn + list Py.dict) :=
  [ inr [ [("instruction", Py.VStr "i1"); ("content", Py.VStr "0")] ];
    inr [ [("instruction", Py.VStr "i2"); ("content", Py.VStr "1")] ];
    inr [ [("instruction", Py.VStr "i3"); ("content", Py.VStr "2")] ] ].

(** A store whose collection has records, none of them with any text. *)
Definition blank_posts : gmap string (list Point) :=
  {[ "cleaned_posts" :=
       [ mkPoint 1 {[ "cleaned_content" := Py.VStr "" ]};
         mkPoint 2 {[ "cleaned_content" := Py.VNone ]} ] ]}.

(** A store with a record that lacks the entry among records that have it. *)
Definition post_missing_among : gmap string (list Point) :=
  {[ "cleaned_posts" :=
       [ mkPoint 1 {[ "cleaned_content" := Py.VStr "A" ]};
         mkPoint 2 {[ "title" := Py.VStr "B" ]};
         mkPoint 3 {[ "cleaned_content" := Py.VStr "C" ]} ] ]}.

(** A tokenizer that gives every prompt the same two tokens. *)
Definition two_tokens : Tokenizer :=
  λ _, inr [("input_ids", [1; 2]); ("attention_mask", [1; 1])].

(** * Facts about the Python primitives *)

Section PyFacts.

Context {A : Type}.
Implicit Types (l : list A) (i j n b : Z).

Lemma len_nonneg l : 0 ≤ Py.len l.
Proof. unfold Py.len. lia. Qed.

Lemma len_app l1 l2 : Py.len (l1 ++ l2) = Py.len l1 + Py.len l2.
Proof. unfold Py.len. rewrite length_app. lia. Qed.

(** An ascending range with enough fuel is the arithmetic progression
    with [ceil((stop - i) / step)] terms. *)
Lemma range_loop_up fuel i stop step :
  0 < step → stop - i ≤ Z.of_nat fuel →
  Py.range_loop fuel i stop step
  = (λ k : nat, i + Z.of_nat k * step)
      <$> seq 0 (Z.to_nat ((stop - i + step - 1) / step)).
Proof.
  intros Hstep. revert i.
  induction fuel as [|fuel IH]; intros i Hfuel; simpl.
  - rewrite Z2Nat.nonpos; [done|].
    apply Z.lt_succ_r, Z.div_lt_upper_bound; lia.
  - rewrite (proj2 (Z.ltb_lt 0 step) Hstep).
    destruct (Z.ltb_spec i stop) as [Hlt|Hge].
    + rewrite IH by lia.
      replace (stop - i + step - 1)
        with (1 * step + (stop - (i + step) + step - 1)) by lia.
      rewrite Z.div_add_l by lia.
      assert (0 ≤ (stop - (i + step) + step - 1) / step)
        by (apply Z.div_pos; lia).
      rewrite Z2Nat.inj_add by lia. simpl.
      f_equal; [lia|].
      rewrite <- fmap_S_seq, <- list_fmap_compose.
      apply list_fmap_ext. intros _ k _. simpl. lia.
    + rewrite Z2Nat.nonpos; [done|].
      apply Z.lt_succ_r, Z.div_lt_upper_bound; lia.
Qed.

Lemma range_batch_starts n b :
  0 < b → 0 ≤ n → Py.range 0 n b = inr (batch_starts n b).
Proof.
  intros Hb Hn. unfold Py.range, batch_starts.
  destruct (Z.eqb_spec b 0) as [->|_]; [lia|].
  rewrite range_loop_up by lia.
  rewrite Z.sub_0_r. f_equal.
Qed.

(** [range(i, i + m)] is [i, i+1, ..., i+m-1]. *)
Lemma range_unit_step i (m : nat) :
  Py.range i (i + Z.of_nat m) 1 = inr ((λ k : nat, i + Z.of_nat k) <$> seq 0 m).
Proof.
  unfold Py.range. simpl. rewrite range_loop_up by lia.
  replace (i + Z.of_nat m - i + 1 - 1) with (Z.of_nat m) by lia.
  rewrite Z.div_1_r, Nat2Z.id. f_equal.
  apply list_fmap_ext. intros _ k _. simpl. lia.
Qed.

(** A slice with bounds [0 ≤ lo ≤ hi] takes [hi - lo] elements after
    dropping [lo], silently stopping at the end of the list. *)
Lemma slice_take_drop l lo hi :
  0 ≤ lo → lo ≤ hi →
  Py.slice l lo hi = take (Z.to_nat (hi - lo)) (drop (Z.to_nat lo) l).
Proof.
  intros Hlo Hhi. unfold Py.slice, Py.clamp_index, Py.len.
  destruct (Z.ltb_spec lo 0); [lia|]. destruct (Z.ltb_spec hi 0); [lia|].
  destruct (Z.le_gt_cases lo (Z.of_nat (length l))) as [Hin|Hout].
  - rewrite (Z.min_l lo) by lia.
    destruct (Z.le_gt_cases hi (Z.of_nat (length l))).
    + rewrite (Z.min_l hi) by lia. done.
    + rewrite (Z.min_r hi) by lia.
      rewrite !take_ge; [done|rewrite length_drop; lia..].
  - rewrite !Z.min_r by lia. rewrite Z.sub_diag. simpl.
    rewrite !drop_ge by lia. by rewrite !take_nil.
Qed.

Lemma length_slice l lo hi :
  0 ≤ lo → lo ≤ hi →
  Py.len (Py.slice l lo hi) = Z.max 0 (Z.min hi (Py.len l) - lo).
Proof.
  intros Hlo Hhi. rewrite slice_take_drop by done.
  unfold Py.len. rewrite length_take, length_drop. lia.
Qed.

Lemma getitem_lookup l j x :
  0 ≤ j → l !! Z.to_nat j = Some x → Py.getitem l j = inr x.
Proof.
  intros Hj Hx. unfold Py.getitem, Py.index_of, Py.len.
  apply lookup_lt_Some in Hx as Hlt.
  destruct (Z.ltb_spec j 0); [lia|].
  destruct (Z.leb_spec 0 j); [|lia].
  destruct (Z.ltb_spec j (Z.of_nat (length l))); [|lia].
  simpl. by rewrite Hx.
Qed.

Lemma getitem_out_of_range l j :
  Py.len l ≤ j → Py.getitem l j = inl Py.index_error.
Proof.
  intros Hj. unfold Py.getitem, Py.index_of. pose proof (len_nonneg l).
  destruct (Z.ltb_spec j 0); [lia|].
  destruct (Z.ltb_spec j (Py.len l)); [lia|].
  by rewrite andb_false_r.
Qed.

Lemma index_of_in_range l j :
  0 ≤ j → j < Py.len l → Py.index_of l j = Some (Z.to_nat j).
Proof.
  intros Hj Hlt. unfold Py.index_of.
  destruct (Z.ltb_spec j 0); [lia|].
  destruct (Z.leb_spec 0 j); [|lia].
  by destruct (Z.ltb_spec j (Py.len l)); [|lia].
Qed.

End PyFacts.

(** * The batches of [generate_training_data] *)

Section Batches.

Context {A : Type}.
Implicit Types (l : list A) (n b : Z).

Lemma lookup_batch_starts n b (k : nat) i :
  batch_starts n b !! k = Some i → i = Z.of_nat k * b.
Proof.
  unfold batch_starts. rewrite list_lookup_fmap.
  intros H. apply fmap_Some in H as (k' & Hk & ->).
  apply lookup_seq in Hk as [-> _]. done.
Qed.

Lemma length_batch_starts n b :
  0 ≤ n → 0 < b → Py.len (batch_starts n b) = (n + b - 1) / b.
Proof.
  intros Hn Hb. unfold batch_starts, Py.len.
  rewrite length_fmap, length_seq, Z2Nat.id; [done|].
  apply Z.div_pos; lia.
Qed.

(** [(n + b - 1) / b] is the least [m] with [n ≤ m * b]. *)
Lemma ceil_div_bounds n b :
  0 < b → ((n + b - 1) / b - 1) * b < n ≤ (n + b - 1) / b * b.
Proof.
  intros Hb.
  pose proof (Z.div_mod (n + b - 1) b ltac:(lia)).
  pose proof (Z.mod_pos_bound (n + b - 1) b Hb). nia.
Qed.

(** The first [m] batches, concatenated, are the first [m * b] records. *)
Lemma concat_batches_take l b (m : nat) :
  0 < b →
  concat ((λ i, Py.slice l i (i + b)) <$> ((λ k : nat, Z.of_nat k * b) <$> seq 0 m))
  = take (Z.to_nat (Z.of_nat m * b)) l.
Proof.
  intros Hb. induction m as [|m IH]; [done|].
  rewrite seq_S, !fmap_app, concat_app, IH. simpl.
  rewrite app_nil_r, slice_take_drop by lia.
  rewrite take_take_drop. f_equal. lia.
Qed.

(** The batches, concatenated, are the records. *)
Lemma concat_batches l b :
  0 < b →
  concat ((λ i, Py.slice l i (i + b))
            <$> batch_starts (Py.len l) b)
  = l.
Proof.
  intros Hb. pose proof (len_nonneg l).
  pose proof (ceil_div_bounds (Py.len l) b Hb).
  assert (0 ≤ (Py.len l + b - 1) / b)
    by (apply Z.div_pos; lia).
  unfold batch_starts. rewrite concat_batches_take by done.
  apply take_ge. unfold Py.len in *. lia.
Qed.

End Batches.

(** * The prompt *)

Section Strings.

Lemma append_cons c (s t : string) : String c s +:+ t = String c (s +:+ t).
Proof. reflexivity. Qed.

Lemma append_nil_r (s : string) : s +:+ "" = s.
Proof.
  induction s as [|c s IH]; [done|]. by rewrite append_cons, IH.
Qed.

Lemma append_assoc (s1 s2 s3 : string) :
  (s1 +:+ s2) +:+ s3 = s1 +:+ (s2 +:+ s3).
Proof.
  induction s1 as [|c s1 IH]; [done|]. by rewrite !append_cons, IH.
Qed.

Lemma length_append (s t : string) :
  String.length (s +:+ t) = (String.length s + String.length t)%nat.
Proof.
  induction s as [|c s IH]; [done|]. rewrite append_cons. simpl. by rewrite IH.
Qed.

(** Text can be cancelled on the right of a concatenation. *)
Lemma append_inj_r (t s1 s2 : string) : s1 +:+ t = s2 +:+ t → s1 = s2.
Proof.
  revert s2. induction s1 as [|c1 s1 IH]; intros [|c2 s2] H; [done|..].
  - apply (f_equal String.length) in H.
    rewrite !length_append in H. simpl in H. lia.
  - apply (f_equal String.length) in H.
    rewrite !length_append in H. simpl in H. lia.
  - rewrite !append_cons in H. injection H as -> H. f_equal. by apply IH.
Qed.

Lemma join_app (ps qs : list string) : join (ps ++ qs) = join ps +:+ join qs.
Proof.
  induction ps as [|p ps IH]; simpl; [done|].
  by rewrite IH, append_assoc.
Qed.

End Strings.

Lemma marker_inj : Inj (=) (=) marker.
Proof.
  intros n1 n2 H. unfold marker in H.
  apply String.app_inj, append_inj_r in H. by apply (inj pretty) in H.
Qed.

Lemma format_data_loop_blocks text index data_points start_index :
  0 ≤ index →
  DataFormatter.format_data_loop text index data_points false start_index
  = text +:+ join (imap (λ k, item_block start_index (Z.to_nat index + k)) data_points).
Proof.
  revert text index.
  induction data_points as [|data_point rest IH]; intros text index Hindex; simpl.
  - by rewrite append_nil_r.
  - rewrite IH by lia. rewrite !append_assoc. f_equal.
    unfold item_block at 2, marker. rewrite Nat.add_0_r, Z2Nat.id by lia.
    rewrite !append_assoc. do 5 f_equal.
    apply (f_equal join), imap_ext. intros k item _. simpl. f_equal. lia.
Qed.

(** ** C4: the markers of the prompt *)

(** C4.  The prompt built by [format_prompt] is the fixed preamble, the
    sentence stating the expected number of objects, which is the length of
    the batch, the header of the contents, and then one block per item of
    the batch, in order: the block at offset [k] is the marker
    ["Content number N"] with [N = start_index + k] followed by the text of
    the item.  So there is exactly one marker per item, numbered from
    [start_index] in steps of one, and different items get different
    markers. *)
Theorem format_prompt_markers (inference_posts : list Py.value) (start_index : Z) :
  ∃ blocks : list string,
    DataFormatter.format_prompt inference_posts start_index
    = USER_PROMPT +:+ count_line (Py.len inference_posts) +:+ contents_header
        +:+ join blocks
    ∧ length blocks = length inference_posts
    ∧ (∀ (k : nat) item, inference_posts !! k = Some item →
         blocks !! k
         = Some (marker (start_index + Z.of_nat k) +:+ Py.str item +:+ Py.nl))
    ∧ (∀ k1 k2 : nat,
         marker (start_index + Z.of_nat k1) = marker (start_index + Z.of_nat k2) →
         k1 = k2).
Proof.
  exists (imap (item_block start_index) inference_posts).
  split; [|split; [|split]].
  - unfold DataFormatter.format_prompt, DataFormatter.format_batch,
      DataFormatter.format_data.
    rewrite format_data_loop_blocks by lia. simpl.
    unfold count_line, contents_header. by rewrite !append_assoc.
  - apply length_imap.
  - intros k item Hk. rewrite list_lookup_imap, Hk. simpl.
    unfold item_block. done.
  - intros k1 k2 H. apply marker_inj in H. lia.
Qed.

Lemma format_prompt_markers_witness :
  ∃ blocks : list string,
    DataFormatter.format_prompt [Py.VStr "A"; Py.VStr "B"] 2
    = USER_PROMPT +:+ count_line 2 +:+ contents_header +:+ join blocks
    ∧ blocks !! 0%nat = Some (marker 2 +:+ "A" +:+ Py.nl)
    ∧ blocks !! 1%nat = Some (marker 3 +:+ "B" +:+ Py.nl).
Proof.
  destruct (format_prompt_markers [Py.VStr "A"; Py.VStr "B"] 2)
    as (blocks & Hprompt & _ & Hblocks & _).
  exists blocks. split; [exact Hprompt|]. split.
  - exact (Hblocks 0%nat (Py.VStr "A") eq_refl).
  - exact (Hblocks 1%nat (Py.VStr "B") eq_refl).
Defined.

(** * Facts about the monad *)

Section MonadFacts.

Context {C : Type}.
#[local] Abbreviation M := (@M C).

Lemma bind_inr {A B} (m : M A) (k : A → M B) w x w' :
  m w = (inr x, w') → bind m k w = k x w'.
Proof. intros H. unfold bind. by rewrite H. Qed.

Lemma bind_inl {A B} (m : M A) (k : A → M B) w e w' :
  m w = (inl e, w') → bind m k w = (inl e, w').
Proof. intros H. unfold bind. by rewrite H. Qed.

Lemma for_app {A S} (xs ys : list A) (s : S) (body : S → A → M S) w :
  for_ (xs ++ ys) s body w
  = bind (for_ xs s body) (λ s', for_ ys s' body) w.
Proof.
  revert s w. induction xs as [|x xs IH]; intros s w; simpl; [reflexivity|].
  unfold bind. destruct (body s x w) as [[e|s'] w']; [done|].
  rewrite IH. reflexivity.
Qed.

(** A round that raises ends the loop: the later rounds do not run. *)
Lemma for_raise {A S} (xs ys : list A) y (s s' : S) (body : S → A → M S)
    w w' w'' e :
  for_ xs s body w = (inr s', w') →
  body s' y w' = (inl e, w'') →
  for_ (xs ++ y :: ys) s body w = (inl e, w'').
Proof.
  intros Hxs Hy. rewrite for_app. rewrite (bind_inr _ _ _ _ _ Hxs). simpl.
  by rewrite (bind_inl _ _ _ _ _ Hy).
Qed.

Section Preserves.

Context {X : Type} (f : @World C → X).

Lemma preserves_ret {A} (x : A) : preserves f (ret x).
Proof. by intros w. Qed.

Lemma preserves_raise {A} e : preserves f (raise (A := A) e).
Proof. by intros w. Qed.

Lemma preserves_lift {A} (r : Py.exn + A) : preserves f (lift r).
Proof. by destruct r; intros w. Qed.

Lemma preserves_bind {A B} (m : M A) (k : A → M B) :
  preserves f m → (∀ x, preserves f (k x)) → preserves f (bind m k).
Proof.
  intros Hm Hk w. unfold bind. specialize (Hm w).
  destruct (m w) as [[e|x] w']; simpl in *; [done|].
  by rewrite Hk.
Qed.

Lemma preserves_for {A S} (xs : list A) (s : S) (body : S → A → M S) :
  (∀ s x, preserves f (body s x)) → preserves f (for_ xs s body).
Proof.
  intros Hbody. revert s. induction xs as [|x xs IH]; intros s; simpl.
  - apply preserves_ret.
  - apply preserves_bind; [apply Hbody|]. intros s'. apply IH.
Qed.

End Preserves.

Section Respects.

Context (R : relation (@World C)).

Lemma respects_ret {A} (x : A) : respects R (ret x).
Proof. by intros w1 w2 H. Qed.

Lemma respects_raise {A} e : respects R (raise (A := A) e).
Proof. by intros w1 w2 H. Qed.

Lemma respects_lift {A} (r : Py.exn + A) : respects R (lift r).
Proof. by destruct r; intros w1 w2 H. Qed.

Lemma respects_bind {A B} (m : M A) (k : A → M B) :
  respects R m → (∀ x, respects R (k x)) → respects R (bind m k).
Proof.
  intros Hm Hk w1 w2 H. unfold bind. destruct (Hm w1 w2 H) as [Hr HR].
  destruct (m w1) as [[e1|x1] w1'], (m w2) as [[e2|x2] w2'];
    simpl in *; simplify_eq; [done|].
  by apply Hk.
Qed.

Lemma respects_for {A S} (xs : list A) (s : S) (body : S → A → M S) :
  (∀ s x, respects R (body s x)) → respects R (for_ xs s body).
Proof.
  intros Hbody. revert s. induction xs as [|x xs IH]; intros s; simpl.
  - apply respects_ret.
  - apply respects_bind; [apply Hbody|]. intros s'. apply IH.
Qed.

End Respects.

End MonadFacts.

(** * Fetching the contents *)

Section Fetch.

Context {C : Type}.
Implicit Types (w : @World C) (page points : list Point).

Lemma for_fetch_step page (acc : list Py.value) w :
  Forall (λ point, is_Some (payload point !! "cleaned_content")) page →
  for_ page acc fetch_step w = (inr (acc ++ kept_contents page), w).
Proof.
  intros Hkeys. revert acc.
  induction Hkeys as [|point page [v Hv] _ IH]; intros acc; simpl.
  - unfold ret. by rewrite app_nil_r.
  - unfold fetch_step at 1, kept_contents. simpl. rewrite Hv.
    destruct (Py.truthy v); simpl.
    + erewrite bind_inr by reflexivity. rewrite IH.
      by rewrite <- app_assoc.
    + erewrite bind_inr by reflexivity. by rewrite IH.
Qed.

(** The rounds of the loop of [fetch_all_cleaned_content] leave the world
    alone. *)
Lemma fetch_step_world page (acc : list Py.value) w :
  (for_ page acc fetch_step w).2 = w.
Proof.
  apply (preserves_for id). intros s point w'. unfold fetch_step.
  destruct (payload point !! "cleaned_content") as [v|]; [|done].
  by destruct (Py.truthy v).
Qed.

Lemma fetch_world collection_name w :
  (fetch_all_cleaned_content collection_name w).2
  = scrolled w collection_name 10000.
Proof.
  unfold fetch_all_cleaned_content, bind, scroll.
  destruct (store w collection_name 10000) as [e|[points next_offset]]; [done|].
  cbn zeta. apply fetch_step_world.
Qed.

End Fetch.

(** ** C7: what [fetch_all_cleaned_content] returns *)

(** C7, amended.  [fetch_all_cleaned_content] makes one [scroll] call with
    the page bound 10000 and looks at the page it gets only: it does not
    follow the offset of the next page, so records beyond the page are
    omitted.  When every record of the page carries a [cleaned_content]
    entry, the records whose entry is empty or [None] are dropped and the
    entries of all the others are returned in fetch order. *)
Theorem fetch_all_cleaned_content_page {C : Type} (w : @World C)
    (collection_name : string) (page : list Point) (next_offset : option Z) :
  store w collection_name 10000 = inr (page, next_offset) →
  Forall (λ point, is_Some (payload point !! "cleaned_content")) page →
  fetch_all_cleaned_content collection_name w
  = (inr (kept_contents page), scrolled w collection_name 10000).
Proof.
  intros Hstore Hkeys.
  unfold fetch_all_cleaned_content, bind, scroll. rewrite Hstore. cbn zeta.
  cbn [fst]. by rewrite for_fetch_step.
Qed.

Lemma fetch_all_cleaned_content_page_witness :
  fetch_all_cleaned_content "cleaned_posts"
    (mkWorld (paged three_posts) [] () [] ∅ no_faults [] false [])
  = (inr [Py.VStr "A"; Py.VStr "C"],
     mkWorld (paged three_posts) [("cleaned_posts", 10000)] () [] ∅ no_faults []
       false []).
Proof.
  refine (fetch_all_cleaned_content_page
            (mkWorld (paged three_posts) [] () [] ∅ no_faults [] false [])
            "cleaned_posts"
            [ mkPoint 1 {[ "cleaned_content" := Py.VStr "A" ]};
              mkPoint 2 {[ "cleaned_content" := Py.VStr "" ]};
              mkPoint 3 {[ "cleaned_content" := Py.VStr "C" ]} ]
            None _ _).
  - vm_compute. reflexivity.
  - repeat constructor; eexists; reflexivity.
Defined.

(** C7 as stated fails on a record without the entry: the subscript
    [point.payload["cleaned_content"]] raises [KeyError], the record is not
    dropped. *)
Lemma fetch_missing_key_counterexample :
  (fetch_all_cleaned_content "cleaned_posts"
     (mkWorld (paged post_without_content) [] () [] ∅ no_faults [] false [])).1
  = inl (Py.KeyError "cleaned_content")
  ∧ ¬ (∀ (w : @World ()) collection_name page next_offset,
         store w collection_name 10000 = inr (page, next_offset) →
         (fetch_all_cleaned_content collection_name w).1
         = inr (kept_contents page)).
Proof.
  split; [by vm_compute|].
  intros Hclaim.
  specialize (Hclaim
                (mkWorld (paged post_without_content) [] () [] ∅ no_faults []
                   false [])
                "cleaned_posts" [mkPoint 1 ∅] None eq_refl).
  vm_compute in Hclaim. discriminate Hclaim.
Qed.

(** * Pushing the dataset *)

Section Push.

Context {C : Type} (json_dumps : list Py.dict → string).
Implicit Types (w : @World C) (data : list Py.dict).

Ltac run_push w :=
  destruct w as [st sc cl pr fs [ef opf df af adf lf enf] ar en lg];
  unfold push_to_comet, try_except, bind, Experiment_new, open_and_dump,
    Artifact_new, Artifact_add, log_artifact, experiment_end, may_fail,
    logging, ret, bind;
  cbn [faults experiment_fault open_fault dump_fault artifact_fault add_fault
       log_artifact_fault end_fault logs files store scrolls client prompts
       artifacts ended fst snd].

Ltac find_infos :=
  simpl; rewrite <- ?app_assoc;
  first [ by exists [] | by eexists [_] | by eexists [_; _]
        | by eexists [_; _; _] | by eexists [_; _; _; _]
        | by eexists [_; _; _; _; _] | by eexists [_; _; _; _; _; _] ].

(** The handler of [push_to_comet] catches whatever its body raises. *)
Lemma push_to_comet_returns data collection_name w :
  (push_to_comet json_dumps data collection_name w).1 = inr ().
Proof.
  unfold push_to_comet, try_except.
  match goal with |- (match ?body with _ => _ end).1 = _ =>
    destruct body as [[e|[]] w'] end; done.
Qed.

(** It talks neither to the store nor to the completion service. *)
Lemma push_to_comet_frame data collection_name w :
  let w' := (push_to_comet json_dumps data collection_name w).2 in
  store w' = store w ∧ scrolls w' = scrolls w ∧ client w' = client w
  ∧ prompts w' = prompts w ∧ faults w' = faults w.
Proof.
  run_push w.
  destruct ef; [done|]. destruct opf; [done|]. destruct df as [[n e]|]; [done|].
  destruct af; [done|]. destruct adf; [done|]. destruct lf; [done|].
  by destruct enf.
Qed.

Lemma push_to_comet_logs_fault data collection_name w e :
  first_fault (faults w) = Some e →
  ∃ infos,
    logs (push_to_comet json_dumps data collection_name w).2
    = logs w ++ infos
        ++ [(ERROR, "Failed to push data to Comet: " +:+ Py.exn_str e)].
Proof.
  run_push w. unfold first_fault.
  cbn [experiment_fault open_fault dump_fault artifact_fault add_fault
       log_artifact_fault end_fault].
  intros He.
  destruct ef; [simplify_eq; find_infos|].
  destruct opf; [simplify_eq; find_infos|].
  destruct df as [[n e']|]; [simplify_eq; find_infos|].
  destruct af; [simplify_eq; find_infos|].
  destruct adf; [simplify_eq; find_infos|].
  destruct lf; [simplify_eq; find_infos|].
  destruct enf; [simplify_eq; find_infos|done].
Qed.

(** Once the file is written, no later failure takes it away. *)
Lemma push_to_comet_file data collection_name w :
  file_written (faults w) →
  files (push_to_comet json_dumps data collection_name w).2
    !! (collection_name +:+ ".json")
  = Some (json_dumps data).
Proof.
  intros (Hef & Hopf & Hdf). run_push w. simpl in Hef, Hopf, Hdf. subst.
  destruct af; [simpl; by rewrite lookup_insert_eq|].
  destruct adf; [simpl; by rewrite lookup_insert_eq|].
  destruct lf; [simpl; by rewrite lookup_insert_eq|].
  destruct enf; simpl; by rewrite lookup_insert_eq.
Qed.

End Push.

(** * Building the response *)

Section Build.

Context {C : Type}.
Implicit Types (w : @World C) (l : list Py.value) (resp : list Py.dict).

Lemma sent_nil w : sent w (client w) [] = w.
Proof. destruct w. unfold sent. simpl. by rewrite app_nil_r. Qed.

Lemma sent_sent w c1 ps1 c2 ps2 :
  sent (sent w c1 ps1) c2 ps2 = sent w c2 (ps1 ++ ps2).
Proof. unfold sent. simpl. by rewrite app_assoc. Qed.

Lemma call_send_prompt_eq (api : @GptCommunicator C) p w r c' :
  send_prompt api (client w) p = (r, c') →
  call_send_prompt api p w = (r, sent w c' [p]).
Proof. intros H. unfold call_send_prompt. by rewrite H. Qed.

Lemma overwrite_content_in_range l resp (j : nat) v d w :
  l !! j = Some v → resp !! j = Some d →
  overwrite_content l resp (Z.of_nat j) w
  = (inr (<[j := Py.dict_setitem d "content" v]> resp), w).
Proof.
  intros Hv Hd. unfold overwrite_content.
  rewrite (getitem_lookup l (Z.of_nat j) v) by (rewrite ?Nat2Z.id; done || lia).
  rewrite (getitem_lookup resp (Z.of_nat j) d) by (rewrite ?Nat2Z.id; done || lia).
  apply lookup_lt_Some in Hd.
  rewrite index_of_in_range by (unfold Py.len; lia).
  by rewrite Nat2Z.id.
Qed.

Lemma overwrite_content_past_end l resp j w :
  Py.len l ≤ j → overwrite_content l resp j w = (inl Py.index_error, w).
Proof.
  intros Hj. unfold overwrite_content. by rewrite getitem_out_of_range.
Qed.

(** The overwrite loop is a computation on the local lists only. *)
Lemma overwrite_loop_world l (js : list Z) resp w :
  (for_ js resp (overwrite_content l) w).2 = w.
Proof.
  apply (preserves_for id). intros resp' j w'. unfold overwrite_content.
  repeat (apply (preserves_bind id); [apply preserves_lift|intros ?]).
  destruct (Py.index_of _ _); done.
Qed.

(** The overwrite loop over the positions of the objects [todo] just
    appended after [before]: each gets the record at its own position. *)
Lemma overwrite_loop l (before todo : list Py.dict) w :
  (length before + length todo ≤ length l)%nat →
  for_ ((λ k : nat, Py.len before + Z.of_nat k) <$> seq 0 (length todo))
    (before ++ todo) (overwrite_content l) w
  = (inr (before ++ overwritten todo (take (length todo) (drop (length before) l))),
     w).
Proof.
  revert before. induction todo as [|d todo IH]; intros before Hlen; [done|].
  simpl in Hlen.
  destruct (lookup_lt_is_Some_2 l (length before) ltac:(lia)) as [v Hv].
  cbn [length seq fmap list_fmap for_].
  replace (Py.len before + Z.of_nat 0) with (Z.of_nat (length before))
    by (unfold Py.len; lia).
  erewrite bind_inr; [|apply (overwrite_content_in_range _ _ _ v d);
                        [done|by apply list_lookup_middle]].
  replace (length before) with (length before + 0)%nat at 1 by lia.
  rewrite insert_app_r. cbn [insert list_insert].
  rewrite (cons_middle _ before todo), app_assoc.
  rewrite <- fmap_S_seq, <- list_fmap_compose.
  erewrite (list_fmap_ext _
              (λ k : nat, Py.len (before ++ [Py.dict_setitem d "content" v])
                          + Z.of_nat k));
    [|intros _ k _; unfold Py.len; rewrite length_app; simpl; lia].
  rewrite IH by (rewrite length_app; simpl; lia).
  rewrite length_app. simpl.
  rewrite (drop_S l v (length before) Hv). simpl.
  rewrite <- app_assoc. simpl.
  by replace (length before + 1)%nat with (S (length before)) by lia.
Qed.

Section Batch.

Context (self : @DatasetGenerator C) (g : Globals) (f : Formatter).
Context (l : list Py.value) (b : Z).
Hypothesis Hg : g_data_formatter g = Some f.
Hypothesis Hb : 0 < b.

(** A batch that the service fails on: the exception comes out of the
    round, right after the prompt was sent. *)
Lemma batch_step_client_error resp i w e c' :
  send_prompt (api_communicator self) (client w) (batch_prompt f l b i)
  = (inl e, c') →
  batch_step self g l b resp i w = (inl e, sent w c' [batch_prompt f l b i]).
Proof.
  intros Hsend. unfold batch_step, load_data_formatter. rewrite Hg.
  erewrite bind_inr by reflexivity.
  by erewrite bind_inl by (by apply call_send_prompt_eq).
Qed.

(** A full batch answered with one object per record. *)
Lemma batch_step_full resp i w answer c' :
  Py.len resp = i → i + b ≤ Py.len l →
  send_prompt (api_communicator self) (client w) (batch_prompt f l b i)
  = (inr answer, c') →
  Py.len answer = b →
  batch_step self g l b resp i w
  = (inr (resp ++ overwritten answer (Py.slice l i (i + b))),
     sent w c' [batch_prompt f l b i]).
Proof.
  intros Hi Hfull Hsend Hanswer. unfold batch_step, load_data_formatter.
  rewrite Hg. erewrite bind_inr by reflexivity.
  erewrite bind_inr by (by apply call_send_prompt_eq).
  replace (Py.range i (i + b) 1)
    with (Py.range i (i + Z.of_nat (length answer)) 1)
    by (unfold Py.len in Hanswer; f_equal; lia).
  rewrite range_unit_step. erewrite bind_inr by reflexivity.
  subst i. rewrite overwrite_loop by (unfold Py.len in *; lia).
  pose proof (len_nonneg resp).
  apply (f_equal2 pair); [|done]. do 3 f_equal.
  rewrite slice_take_drop by lia.
  f_equal; unfold Py.len in *; [lia|f_equal; lia].
Qed.

(** The last batch when it is shorter than [b], answered with one object
    per record: the overwrite loop runs past the end of [all_contents]. *)
Lemma batch_step_short resp i w answer c' :
  Py.len resp = i → i < Py.len l → Py.len l < i + b →
  send_prompt (api_communicator self) (client w) (batch_prompt f l b i)
  = (inr answer, c') →
  Py.len answer = Py.len l - i →
  batch_step self g l b resp i w
  = (inl Py.index_error, sent w c' [batch_prompt f l b i]).
Proof.
  intros Hi Hlt Hshort Hsend Hanswer. unfold batch_step, load_data_formatter.
  rewrite Hg. erewrite bind_inr by reflexivity.
  erewrite bind_inr by (by apply call_send_prompt_eq).
  pose proof (len_nonneg resp).
  replace (Py.range i (i + b) 1)
    with (Py.range i (i + Z.of_nat (Z.to_nat b)) 1) by (f_equal; lia).
  rewrite range_unit_step. erewrite bind_inr by reflexivity.
  replace (Z.to_nat b)
    with (length answer + S (Z.to_nat b - length answer - 1))%nat
    by (unfold Py.len in *; lia).
  rewrite seq_app, fmap_app. cbn [seq fmap list_fmap].
  subst i.
  eapply for_raise.
  - apply overwrite_loop. unfold Py.len in *. lia.
  - apply overwrite_content_past_end. unfold Py.len in *. lia.
Qed.

Lemma replay_cons (api : @GptCommunicator C) c p ps rs c' :
  replay api c (p :: ps) = Some (rs, c') →
  ∃ answer c1 rs',
    send_prompt api c p = (inr answer, c1)
    ∧ replay api c1 ps = Some (rs', c') ∧ rs = answer :: rs'.
Proof.
  simpl. destruct (send_prompt api c p) as [[e|answer] c1]; [done|].
  destruct (replay api c1 ps) as [[rs' c'']|] eqn:Hrest; [|done].
  intros [= <- <-]. exists answer, c1, rs'. by rewrite Hrest.
Qed.

(** The rounds from batch [k0] on, when the service answers every prompt
    with one object per record of the batch and [m] batches are left.  With
    [n] a multiple of [b] every batch is full and each object gets the
    record of its position; otherwise the last batch is short and its round
    raises [IndexError], after its prompt was sent. *)
Lemma batches_run (m : nat) : ∀ (k0 : nat) resp w rs c',
  Py.len resp = Z.of_nat k0 * b →
  Z.of_nat k0 * b ≤ Py.len l →
  Z.of_nat (k0 + m) = (Py.len l + b - 1) / b →
  replay (api_communicator self) (client w)
    (batch_prompt f l b <$> ((λ k : nat, Z.of_nat (k0 + k) * b) <$> seq 0 m))
  = Some (rs, c') →
  Forall2 (λ answer i, Py.len answer = Py.len (Py.slice l i (i + b)))
    rs ((λ k : nat, Z.of_nat (k0 + k) * b) <$> seq 0 m) →
  for_ ((λ k : nat, Z.of_nat (k0 + k) * b) <$> seq 0 m) resp
    (batch_step self g l b) w
  = (if Py.len l mod b =? 0
     then inr (resp ++ overwritten (concat rs) (drop (Z.to_nat (Z.of_nat k0 * b)) l))
     else inl Py.index_error,
     sent w c'
       (batch_prompt f l b <$> ((λ k : nat, Z.of_nat (k0 + k) * b) <$> seq 0 m))).
Proof.
  pose proof (ceil_div_bounds (Py.len l) b Hb) as Hceil.
  pose proof (len_nonneg l) as Hn.
  induction m as [|m IH]; intros k0 resp w rs c' Hresp Hdone Hcount Hreplay Hlens.
  - simpl in Hreplay. injection Hreplay as <- <-. simpl.
    rewrite sent_nil. unfold ret.
    assert (Py.len l = Z.of_nat k0 * b) as Hexact by nia.
    rewrite Hexact at 1. rewrite Z.mod_mul by lia. simpl.
    unfold overwritten. by rewrite app_nil_r.
  - cbn [seq fmap list_fmap] in *.
    rewrite <- fmap_S_seq, <- list_fmap_compose in *.
    rewrite (list_fmap_ext _ (λ k : nat, Z.of_nat (S k0 + k) * b) (seq 0 m))
      in * by (intros _ k _; simpl; f_equal; lia).
    replace (Z.of_nat (k0 + 0)) with (Z.of_nat k0) in * by lia.
    apply replay_cons in Hreplay as (answer & c1 & rs' & Hsend & Hreplay & ->).
    apply Forall2_cons in Hlens as [Hanswer Hlens].
    assert (Z.of_nat k0 * b < Py.len l) as Hlt by nia.
    assert (0 ≤ Z.of_nat k0 * b) as Hnonneg by nia.
    rewrite length_slice in Hanswer by lia.
    cbn [for_].
    destruct (Z.le_gt_cases (Z.of_nat k0 * b + b) (Py.len l)) as [Hfull|Hshort].
    + erewrite bind_inr
        by (apply (batch_step_full _ _ _ answer c1); [done..|lia]).
      rewrite (IH (S k0) _ _ rs' c'); [| |lia|lia|done|done].
      * rewrite sent_sent. apply (f_equal2 pair); [|done].
        destruct (Py.len l mod b =? 0); [|done].
        f_equal. rewrite <- app_assoc. f_equal.
        rewrite slice_take_drop by lia. cbn [concat]. unfold overwritten.
        rewrite <- (take_drop (Z.to_nat (Z.of_nat k0 * b + b - Z.of_nat k0 * b))
                      (drop (Z.to_nat (Z.of_nat k0 * b)) l)) at 2.
        rewrite zip_with_app.
        -- do 2 f_equal. rewrite drop_drop. f_equal. lia.
        -- rewrite length_take, length_drop. unfold Py.len in *. lia.
      * rewrite len_app. unfold overwritten, Py.len.
        rewrite length_zip_with.
        pose proof (length_slice l (Z.of_nat k0 * b) (Z.of_nat k0 * b + b)
                      ltac:(lia) ltac:(lia)) as Hs.
        unfold Py.len in *. lia.
    + assert (m = 0%nat) as -> by nia.
      simpl in Hreplay. injection Hreplay as <- <-. simpl.
      erewrite bind_inl
        by (apply (batch_step_short _ _ _ answer c1); [done..|lia]).
      apply (f_equal2 pair); [|done].
      destruct (Z.eqb_spec (Py.len l mod b) 0) as [Hmod|]; [|done].
      apply Z.mod_divide in Hmod as [q Hq]; [|lia].
      assert (Z.of_nat k0 < q) by nia. assert (q < Z.of_nat k0 + 1) by nia.
      lia.
Qed.

(** The whole loop, when the service answers every prompt with one object
    per record of the batch. *)
Lemma build_response_exact w rs c' :
  replay (api_communicator self) (client w) (batch_prompts f l b) = Some (rs, c') →
  Forall2 (λ answer i, Py.len answer = Py.len (Py.slice l i (i + b)))
    rs (batch_starts (Py.len l) b) →
  build_response self g l b w
  = (if Py.len l mod b =? 0 then inr (overwritten (concat rs) l)
     else inl Py.index_error,
     sent w c' (batch_prompts f l b)).
Proof.
  intros Hreplay Hlens. pose proof (len_nonneg l).
  unfold build_response. rewrite range_batch_starts by lia.
  erewrite bind_inr by reflexivity.
  unfold batch_prompts, batch_starts in *.
  assert (0 ≤ (Py.len l + b - 1) / b) by (apply Z.div_pos; lia).
  apply (batches_run _ 0%nat [] w rs c'); [done|lia|simpl; lia|done|done].
Qed.

(** A batch that the service fails on ends the loop: the exception comes
    out, and no later prompt is sent. *)
Lemma build_response_client_error w (k : nat) i resp w' e c' :
  batch_starts (Py.len l) b !! k = Some i →
  for_ (take k (batch_starts (Py.len l) b)) [] (batch_step self g l b) w
  = (inr resp, w') →
  send_prompt (api_communicator self) (client w') (batch_prompt f l b i)
  = (inl e, c') →
  build_response self g l b w = (inl e, sent w' c' [batch_prompt f l b i]).
Proof.
  intros Hk Hbefore Hsend. pose proof (len_nonneg l).
  unfold build_response. rewrite range_batch_starts by lia.
  erewrite bind_inr by reflexivity.
  rewrite <- (take_drop_middle _ _ _ Hk).
  eapply for_raise; [done|]. by apply batch_step_client_error.
Qed.

End Batch.

(** A round of the loop changes the world through [send_prompt] only. *)
Lemma preserves_batch_step {X} (obs : @World C → X)
    (self : @DatasetGenerator C) g l b resp i :
  (∀ w c ps, obs (sent w c ps) = obs w) →
  preserves obs (batch_step self g l b resp i).
Proof.
  intros Hobs. unfold batch_step.
  apply preserves_bind.
  { unfold load_data_formatter. destruct (g_data_formatter g);
      [apply preserves_ret|apply preserves_raise]. }
  intros formatter. apply preserves_bind.
  { intros w. unfold call_send_prompt.
    destruct (send_prompt _ _ _) as [r c1]. simpl.
    apply (Hobs w c1 [_]). }
  intros answer. apply preserves_bind; [apply preserves_lift|]. intros js.
  intros w. by rewrite overwrite_loop_world.
Qed.

Lemma preserves_build_response {X} (obs : @World C → X)
    (self : @DatasetGenerator C) g l b :
  (∀ w c ps, obs (sent w c ps) = obs w) →
  preserves obs (build_response self g l b).
Proof.
  intros Hobs. unfold build_response.
  apply preserves_bind; [apply preserves_lift|]. intros starts.
  apply preserves_for. intros resp i. by apply preserves_batch_step.
Qed.

(** Whatever the service answers, a round sends exactly one prompt. *)
Lemma batch_step_world (self : @DatasetGenerator C) g f l b resp i w :
  g_data_formatter g = Some f →
  (batch_step self g l b resp i w).2
  = sent w (send_prompt (api_communicator self) (client w)
              (batch_prompt f l b i)).2 [batch_prompt f l b i].
Proof.
  intros Hg. unfold batch_step, load_data_formatter. rewrite Hg.
  erewrite bind_inr by reflexivity.
  unfold bind at 1, call_send_prompt, batch_prompt.
  destruct (send_prompt _ _ _) as [[e|answer] c1]; [done|]. simpl.
  apply overwrite_loop_world.
Qed.

(** Two runs in step stay in step through the fetch and through the loop. *)
Lemma respects_fetch collection_name P1 P2 :
  respects (in_step (C := C) collection_name P1 P2)
    (fetch_all_cleaned_content collection_name).
Proof.
  intros w1 w2 (Hstore & Hclient & ps & H1 & H2).
  split.
  - unfold fetch_all_cleaned_content, bind, scroll. rewrite Hstore.
    destruct (store w2 collection_name 10000) as [e|[points next_offset]];
      [done|].
    cbn zeta. cbn [fst].
    generalize (@nil Py.value).
    induction points as [|point page IH]; intros acc; [done|].
    simpl. unfold bind, fetch_step at 1 3.
    destruct (payload point !! "cleaned_content") as [v|]; [|done].
    destruct (Py.truthy v); simpl; apply IH.
  - rewrite !fetch_world. unfold in_step, scrolled. simpl. eauto.
Qed.

Lemma respects_build_response collection_name P1 P2
    (self : @DatasetGenerator C) g l b :
  respects (in_step collection_name P1 P2) (build_response self g l b).
Proof.
  unfold build_response.
  apply respects_bind; [apply respects_lift|]. intros starts.
  apply respects_for. intros resp i. unfold batch_step.
  apply respects_bind.
  { unfold load_data_formatter. destruct (g_data_formatter g);
      [apply respects_ret|apply respects_raise]. }
  intros formatter. apply respects_bind.
  { intros w1 w2 (Hstore & Hclient & ps & H1 & H2). unfold call_send_prompt.
    rewrite Hclient. destruct (send_prompt _ _ _) as [r c1]. simpl.
    split; [done|]. split; [done|]. split; [done|].
    eexists. rewrite H1, H2, <- !app_assoc. done. }
  intros answer. apply respects_bind; [apply respects_lift|]. intros js.
  intros w1 w2 Hw.
  pose proof (overwrite_loop_world l js (resp ++ answer) w1) as E1.
  pose proof (overwrite_loop_world l js (resp ++ answer) w2) as E2.
  rewrite E1, E2. split; [|done].
  clear E1 E2 Hw. revert w1 w2. generalize (resp ++ answer).
  induction js as [|j js IH]; intros resp' w1 w2; [done|].
  simpl. unfold bind.
  pose proof (overwrite_loop_world l [j] resp' w1) as E1.
  pose proof (overwrite_loop_world l [j] resp' w2) as E2.
  simpl in E1, E2. unfold bind, ret in E1, E2.
  assert ((overwrite_content l resp' j w1).1 = (overwrite_content l resp' j w2).1)
    as Hsame.
  { unfold overwrite_content, bind, lift.
    destruct (Py.getitem l j); [done|].
    destruct (Py.getitem resp' j); [done|].
    by destruct (Py.index_of resp' j). }
  destruct (overwrite_content l resp' j w1) as [[e1|r1] w1'],
           (overwrite_content l resp' j w2) as [[e2|r2] w2'];
    simpl in *; simplify_eq; [done|].
  apply IH.
Qed.

End Build.

(** * The whole method *)

Section Generate.

Context {C : Type} (json_dumps : list Py.dict → string).
Context (self : @DatasetGenerator C) (g : Globals).
Context (collection_name : string) (batch_size : Z).
Implicit Types (w : @World C) (l : list Py.value).

Lemma fetch_eq w l :
  (fetch_all_cleaned_content collection_name w).1 = inr l →
  fetch_all_cleaned_content collection_name w
  = (inr l, scrolled w collection_name 10000).
Proof.
  intros H. rewrite <- fetch_world, <- H.
  by destruct (fetch_all_cleaned_content collection_name w).
Qed.

Lemma generate_pushes w l data w' :
  (fetch_all_cleaned_content collection_name w).1 = inr l →
  build_response self g l batch_size (scrolled w collection_name 10000)
  = (inr data, w') →
  generate_training_data json_dumps self g collection_name batch_size w
  = push_to_comet json_dumps data collection_name w'.
Proof.
  intros Hfetch Hbuild. unfold generate_training_data.
  rewrite (bind_inr _ _ _ _ _ (fetch_eq _ _ Hfetch)).
  by rewrite (bind_inr _ _ _ _ _ Hbuild).
Qed.

Lemma generate_raises w l e w' :
  (fetch_all_cleaned_content collection_name w).1 = inr l →
  build_response self g l batch_size (scrolled w collection_name 10000)
  = (inl e, w') →
  generate_training_data json_dumps self g collection_name batch_size w
  = (inl e, w').
Proof.
  intros Hfetch Hbuild. unfold generate_training_data.
  rewrite (bind_inr _ _ _ _ _ (fetch_eq _ _ Hfetch)).
  by rewrite (bind_inl _ _ _ _ _ Hbuild).
Qed.

(** [push_to_comet] sends no prompt, so the prompts of a run are those of
    its loop. *)
Lemma generate_prompts w l :
  (fetch_all_cleaned_content collection_name w).1 = inr l →
  let w' := (build_response self g l batch_size
               (scrolled w collection_name 10000)).2 in
  let r := generate_training_data json_dumps self g collection_name batch_size w in
  prompts r.2 = prompts w' ∧ client r.2 = client w'.
Proof.
  intros Hfetch.
  destruct (build_response self g l batch_size (scrolled w collection_name 10000))
    as [[e|data] w'] eqn:Hbuild; cbn zeta.
  - by rewrite (generate_raises _ _ _ _ Hfetch Hbuild).
  - rewrite (generate_pushes _ _ _ _ Hfetch Hbuild). simpl.
    by destruct (push_to_comet_frame json_dumps data collection_name w')
      as (_ & _ & -> & -> & _).
Qed.

(** A run that raises has not reached [push_to_comet]: it leaves the files,
    the artifacts and the log as they were. *)
Lemma generate_raises_no_push w e :
  (generate_training_data json_dumps self g collection_name batch_size w).1
  = inl e →
  let r := generate_training_data json_dumps self g collection_name batch_size w in
  files r.2 = files w ∧ artifacts r.2 = artifacts w ∧ logs r.2 = logs w.
Proof.
  intros Hraise. cbn zeta.
  destruct (fetch_all_cleaned_content collection_name w) as [[e'|l] w1] eqn:Hfetch.
  - unfold generate_training_data in *.
    rewrite (bind_inl _ _ _ _ _ Hfetch) in *.
    pose proof (fetch_world collection_name w) as Hw. rewrite Hfetch in Hw.
    simpl in *. by subst w1.
  - assert ((fetch_all_cleaned_content collection_name w).1 = inr l) as Hl
      by (by rewrite Hfetch).
    destruct (build_response self g l batch_size
                (scrolled w collection_name 10000)) as [[e'|data] w2] eqn:Hbuild.
    + rewrite (generate_raises _ _ _ _ Hl Hbuild). simpl.
      pose proof (preserves_build_response files self g l batch_size
                    ltac:(done) (scrolled w collection_name 10000)) as Hf.
      pose proof (preserves_build_response artifacts self g l batch_size
                    ltac:(done) (scrolled w collection_name 10000)) as Ha.
      pose proof (preserves_build_response logs self g l batch_size
                    ltac:(done) (scrolled w collection_name 10000)) as Hlg.
      rewrite Hbuild in Hf, Ha, Hlg. by simpl in *.
    + rewrite (generate_pushes _ _ _ _ Hl Hbuild) in Hraise.
      by rewrite push_to_comet_returns in Hraise.
Qed.

End Generate.

(** * The claims about [generate_training_data] *)

(** ** C1: the scenario of the specification *)

(** C1, at its scenario.  With the three records ["A"], ["B"], ["C"], a batch
    size of 2 and the answers of the scenario, [generate_training_data] does
    not produce the expected dataset: both prompts are sent and both answers
    consumed, then the overwrite loop of the second batch asks for
    [all_contents[3]] and raises [IndexError]; nothing is written. *)
Theorem scenario_short_batch_raises (json_dumps : list Py.dict → string) :
  let r := generate_training_data json_dumps script_generator
             (module_globals "__main__") "cleaned_posts" 2
             (script_world scenario_store scenario_answers) in
  r.1 = inl Py.index_error
  ∧ prompts r.2 = [ batch_prompt DataFormatter_new scenario_contents 2 0;
                    batch_prompt DataFormatter_new scenario_contents 2 2 ]
  ∧ client r.2 = []
  ∧ files r.2 = ∅.
Proof. vm_compute. done. Qed.

(** With full batches the objects do get the records of their positions:
    the same records and answers, one record per batch. *)
Lemma scenario_unit_batches (json_dumps : list Py.dict → string) :
  build_response script_generator (module_globals "__main__")
    scenario_contents 1
    (script_world scenario_store scenario_unit_answers)
  = (inr scenario_dataset,
     sent (script_world scenario_store []) []
       (batch_prompts DataFormatter_new scenario_contents 1)).
Proof. vm_compute. done. Qed.

(** ** C2: a short last batch *)

(** C2.  When the number of fetched records is not a multiple of the batch
    size [b > 1], and the service answers every prompt with exactly one
    object per record of the batch, [generate_training_data] raises
    [IndexError]: every prompt, that of the last batch included, has been
    sent by then, and [push_to_comet] is not reached. *)
Theorem short_last_batch_raises {C : Type} (json_dumps : list Py.dict → string)
    (self : @DatasetGenerator C) (g : Globals) (f : Formatter)
    (collection_name : string) (batch_size : Z) (w : @World C)
    (all_contents : list Py.value) (answers : list (list Py.dict)) (c' : C) :
  1 < batch_size →
  Py.len all_contents mod batch_size ≠ 0 →
  g_data_formatter g = Some f →
  (fetch_all_cleaned_content collection_name w).1 = inr all_contents →
  replay (api_communicator self) (client w)
    (batch_prompts f all_contents batch_size) = Some (answers, c') →
  Forall2 (λ answer i,
             Py.len answer
             = Py.len (Py.slice all_contents i (i + batch_size)))
    answers (batch_starts (Py.len all_contents) batch_size) →
  generate_training_data json_dumps self g collection_name batch_size w
  = (inl Py.index_error,
     sent (scrolled w collection_name 10000) c'
       (batch_prompts f all_contents batch_size)).
Proof.
  intros Hb Hmod Hg Hfetch Hreplay Hlens.
  apply (generate_raises _ _ _ _ _ _ all_contents); [done|].
  rewrite (build_response_exact self g f all_contents batch_size Hg ltac:(lia)
             _ answers c'); [|done..].
  by destruct (Z.eqb_spec (Py.len all_contents mod batch_size) 0).
Qed.

Lemma short_last_batch_raises_witness :
  generate_training_data (λ _, "") script_generator
    (module_globals "__main__") "cleaned_posts" 2
    (script_world scenario_store scenario_answers)
  = (inl Py.index_error,
     sent (scrolled (script_world scenario_store scenario_answers)
             "cleaned_posts" 10000)
       [] (batch_prompts DataFormatter_new scenario_contents 2)).
Proof.
  refine (short_last_batch_raises (λ _, "") script_generator
            (module_globals "__main__") DataFormatter_new "cleaned_posts" 2
            (script_world scenario_store scenario_answers)
            scenario_contents
            [ [ [("instruction", Py.VStr "i1"); ("content", Py.VStr "0")];
                [("instruction", Py.VStr "i2"); ("content", Py.VStr "1")] ];
              [ [("instruction", Py.VStr "i3"); ("content", Py.VStr "2")] ] ]
            [] _ _ _ _ _ _).
  - lia.
  - vm_compute. discriminate.
  - reflexivity.
  - vm_compute. reflexivity.
  - vm_compute. reflexivity.
  - vm_compute. repeat constructor.
Defined.

(** ** C3: the partition into batches *)

Section BatchOrder.

Context {C : Type} (self : @DatasetGenerator C) (g : Globals) (f : Formatter).
Context (l : list Py.value) (b : Z).
Hypothesis Hg : g_data_formatter g = Some f.

(** However its rounds end, the loop over the start indices sends the
    prompts of the batches in order and without a gap, up to the round it
    stops in; a loop that completes has gone through all of them. *)
Lemma batch_loop_prompts (starts : list Z) (resp : list Py.dict) (w : @World C) :
  ∃ m : nat,
    (m ≤ length starts)%nat
    ∧ prompts (for_ starts resp (batch_step self g l b) w).2
      = prompts w ++ take m (batch_prompt f l b <$> starts)
    ∧ (∀ resp', (for_ starts resp (batch_step self g l b) w).1 = inr resp' →
         m = length starts).
Proof.
  revert resp w. induction starts as [|i starts IH]; intros resp w.
  - exists 0%nat. simpl. by rewrite app_nil_r.
  - cbn [for_].
    pose proof (batch_step_world self g f l b resp i w Hg) as Hw.
    destruct (batch_step self g l b resp i w) as [[e|resp1] w1] eqn:Hstep;
      simpl in Hw; subst w1.
    + rewrite (bind_inl _ _ _ _ _ Hstep).
      exists 1%nat. simpl. split; [lia|]. rewrite take_0. by split.
    + rewrite (bind_inr _ _ _ _ _ Hstep).
      destruct (IH resp1
                  (sent w (send_prompt (api_communicator self) (client w)
                             (batch_prompt f l b i)).2
                     [batch_prompt f l b i]))
        as (m & Hm & Hprompts & Hall).
      exists (S m). simpl. split; [lia|]. split.
      * rewrite Hprompts. simpl. by rewrite <- app_assoc.
      * intros resp' Hresp. f_equal. by apply (Hall resp').
Qed.

Lemma build_response_prompts (w : @World C) :
  0 < b →
  ∃ m : nat,
    (m ≤ length (batch_starts (Py.len l) b))%nat
    ∧ prompts (build_response self g l b w).2
      = prompts w ++ take m (batch_prompts f l b)
    ∧ (∀ resp', (build_response self g l b w).1 = inr resp' →
         m = length (batch_starts (Py.len l) b)).
Proof.
  intros Hb. unfold build_response.
  rewrite range_batch_starts by (done || apply len_nonneg).
  erewrite bind_inr by reflexivity.
  apply batch_loop_prompts.
Qed.

End BatchOrder.

(** C3.  For a batch size [b ≥ 1] and [n] fetched records, the loop header
    [range(0, len(all_contents), batch_size)] with the slice
    [all_contents[i : i + batch_size]] yields [ceil(n / b)] batches: the
    [k]-th one starts at [k * b], so the start indices strictly increase and
    the batches are contiguous; every batch holds [min b (n - i)] records,
    which is [b] for all but the last and at least one for the last; and the
    batches concatenated in order are exactly the fetched sequence.  A run
    of [generate_training_data] processes these batches and no other, in
    this order: whatever the service does, the prompts it has sent are those
    of the first [m] batches, each made of its batch and its start index,
    and [m] is the number of batches when the run returns; and when the
    service answers every prompt with one object per record of its batch,
    the prompts of all the batches have been sent. *)
Theorem batches_partition {C : Type} (json_dumps : list Py.dict → string)
    (self : @DatasetGenerator C) (g : Globals) (f : Formatter)
    (collection_name : string) (batch_size : Z) (w : @World C)
    (all_contents : list Py.value) :
  1 ≤ batch_size →
  g_data_formatter g = Some f →
  (fetch_all_cleaned_content collection_name w).1 = inr all_contents →
  let r := generate_training_data json_dumps self g collection_name batch_size w in
  let batch := λ i, Py.slice all_contents i (i + batch_size) in
  ∃ starts : list Z,
    Py.range 0 (Py.len all_contents) batch_size = inr starts
    ∧ Py.len starts = (Py.len all_contents + batch_size - 1) / batch_size
    ∧ (Py.len starts - 1) * batch_size < Py.len all_contents ≤ Py.len starts * batch_size
    ∧ (∀ (k : nat) i, starts !! k = Some i → i = Z.of_nat k * batch_size)
    ∧ (∀ (k : nat) i, starts !! k = Some i →
         batch i = take (Z.to_nat batch_size) (drop (Z.to_nat i) all_contents)
         ∧ Py.len (batch i) = Z.min batch_size (Py.len all_contents - i)
         ∧ 1 ≤ Py.len (batch i)
         ∧ (Z.of_nat k + 1 < Py.len starts → Py.len (batch i) = batch_size))
    ∧ concat (batch <$> starts) = all_contents
    ∧ (∃ m : nat,
         (m ≤ length starts)%nat
         ∧ prompts r.2
           = prompts w ++ take m ((λ i, format_prompt f (batch i) i) <$> starts)
         ∧ (r.1 = inr () → m = length starts))
    ∧ (∀ (answers : list (list Py.dict)) (c' : C),
         replay (api_communicator self) (client w)
           ((λ i, format_prompt f (batch i) i) <$> starts)
         = Some (answers, c') →
         Forall2 (λ answer i, Py.len answer = Py.len (batch i)) answers starts →
         prompts r.2
         = prompts w ++ ((λ i, format_prompt f (batch i) i) <$> starts)).
Proof.
  intros Hb Hg Hfetch r batch. pose proof (len_nonneg all_contents) as Hn.
  pose proof (ceil_div_bounds (Py.len all_contents) batch_size ltac:(lia)) as Hceil.
  exists (batch_starts (Py.len all_contents) batch_size).
  rewrite length_batch_starts by lia.
  split; [by apply range_batch_starts; lia|].
  split; [done|]. split; [done|].
  split; [by apply lookup_batch_starts|].
  split.
  { intros k i Hk. pose proof (lookup_lt_Some _ _ _ Hk) as Hlt.
    apply lookup_batch_starts in Hk as ->.
    unfold batch_starts in Hlt. rewrite length_fmap, length_seq in Hlt.
    assert (Z.of_nat k < (Py.len all_contents + batch_size - 1) / batch_size)
      as Hlt' by lia.
    assert (Z.of_nat k * batch_size < Py.len all_contents) by nia.
    assert (0 ≤ Z.of_nat k * batch_size) by nia.
    unfold batch. rewrite length_slice by lia.
    split.
    { rewrite slice_take_drop by lia. do 2 f_equal. lia. }
    split; [lia|]. split; [lia|]. intros Hnotlast.
    assert (Z.of_nat k * batch_size + batch_size ≤ Py.len all_contents) by nia.
    lia. }
  split; [apply concat_batches; lia|].
  destruct (generate_prompts json_dumps self g collection_name batch_size
              w all_contents Hfetch) as [Hprompts _].
  fold r in Hprompts.
  split.
  - destruct (build_response_prompts self g f all_contents batch_size Hg
                (scrolled w collection_name 10000) ltac:(lia))
      as (m & Hm & Hsent & Hall).
    exists m. split; [done|]. split.
    + rewrite Hprompts. exact Hsent.
    + intros Hret.
      destruct (build_response self g all_contents batch_size
                  (scrolled w collection_name 10000))
        as [[e|data] w'] eqn:Hbuild.
      * unfold r in Hret.
        by rewrite (generate_raises json_dumps self g collection_name
                      batch_size w all_contents e w' Hfetch Hbuild) in Hret.
      * by apply (Hall data).
  - intros answers c' Hreplay Hlens.
    rewrite Hprompts.
    by rewrite (build_response_exact self g f all_contents batch_size Hg
                  ltac:(lia) (scrolled w collection_name 10000) answers c'
                  Hreplay Hlens).
Qed.

Lemma batches_partition_witness :
  let r := generate_training_data (λ _, "") script_generator
             (module_globals "__main__") "cleaned_posts" 2
             (script_world scenario_store scenario_answers) in
  ∃ starts : list Z,
    Py.range 0 (Py.len scenario_contents) 2 = inr starts
    ∧ Py.len starts = 2
    ∧ concat ((λ i, Py.slice scenario_contents i (i + 2)) <$> starts)
      = scenario_contents
    ∧ prompts r.2
      = [] ++ ((λ i, DataFormatter.format_prompt
                       (Py.slice scenario_contents i (i + 2)) i) <$> starts).
Proof.
  destruct (batches_partition (λ _, "") script_generator
              (module_globals "__main__") DataFormatter_new "cleaned_posts" 2
              (script_world scenario_store scenario_answers)
              scenario_contents ltac:(lia) eq_refl eq_refl)
    as (starts & Hrange & Hlen & _ & _ & _ & Hconcat & _ & Hsent).
  exists starts. split; [exact Hrange|]. split; [exact Hlen|].
  split; [exact Hconcat|].
  assert (starts = [0; 2]) as -> by (vm_compute in Hrange; congruence).
  apply (Hsent
           [ [ [("instruction", Py.VStr "i1"); ("content", Py.VStr "0")];
               [("instruction", Py.VStr "i2"); ("content", Py.VStr "1")] ];
             [ [("instruction", Py.VStr "i3"); ("content", Py.VStr "2")] ] ]
           []).
  - vm_compute. reflexivity.
  - vm_compute. repeat constructor.
Defined.

(** ** C5: the formatter that builds the prompts *)

(** C5.  [generate_training_data] resolves the module-level name
    [data_formatter], not the field [self.data_formatter]: a run does not
    depend on the formatter given to the constructor.  In a module that was
    imported rather than run as a script the name is unbound, and for a
    batch size of at least one and a collection that yields at least one
    record the run raises [NameError] in its first round: the records have
    been fetched, no prompt is sent, [push_to_comet] is not reached. *)
Theorem data_formatter_is_global {C : Type} (json_dumps : list Py.dict → string)
    (self : @DatasetGenerator C) (g : Globals) (collection_name : string)
    (batch_size : Z) (w : @World C) :
  (∀ formatter' : Formatter,
     generate_training_data json_dumps
       (mkDatasetGenerator (file_handler self) (api_communicator self) formatter')
       g collection_name batch_size w
     = generate_training_data json_dumps self g collection_name batch_size w)
  ∧ (∀ (module_name : string) (all_contents : list Py.value),
       module_name ≠ "__main__" →
       1 ≤ batch_size →
       (fetch_all_cleaned_content collection_name w).1 = inr all_contents →
       all_contents ≠ [] →
       generate_training_data json_dumps self (module_globals module_name)
         collection_name batch_size w
       = (inl (Py.NameError "data_formatter"),
          scrolled w collection_name 10000)).
Proof.
  split; [done|].
  intros module_name all_contents Hname Hb Hfetch Hne.
  apply (generate_raises _ _ _ _ _ _ all_contents); [done|].
  pose proof (len_nonneg all_contents) as Hn.
  assert (1 ≤ Py.len all_contents) as Hn1
    by (destruct all_contents; [done|unfold Py.len; simpl; lia]).
  unfold build_response. rewrite range_batch_starts by lia.
  erewrite bind_inr by reflexivity. unfold batch_starts.
  pose proof (ceil_div_bounds (Py.len all_contents) batch_size ltac:(lia)).
  destruct (Z.to_nat ((Py.len all_contents + batch_size - 1) / batch_size))
    as [|k] eqn:Hk; [nia|].
  cbn [seq fmap list_fmap for_].
  apply bind_inl. unfold batch_step, load_data_formatter, module_globals.
  apply String.eqb_neq in Hname. by rewrite Hname.
Qed.

Lemma data_formatter_is_global_witness :
  generate_training_data (λ _, "") script_generator (module_globals "generate_data")
    "cleaned_posts" 2 (script_world scenario_store scenario_answers)
  = (inl (Py.NameError "data_formatter"),
     scrolled (script_world scenario_store scenario_answers) "cleaned_posts" 10000).
Proof.
  refine (proj2 (data_formatter_is_global (λ _, "") script_generator
                   (module_globals "generate_data") "cleaned_posts" 2
                   (script_world scenario_store scenario_answers))
            "generate_data" scenario_contents _ _ _ _).
  - discriminate.
  - lia.
  - vm_compute. reflexivity.
  - discriminate.
Defined.

(** ** C6: a failing completion call *)

(** C6.  When the first [k] batches went through and the completion call for
    the next batch raises, be it on a malformed answer or on anything else,
    [generate_training_data] raises that exception: the prompt of the
    failing call is the last one sent, so the remaining batches are not
    processed, and no file is written and no artifact logged. *)
Theorem completion_failure_aborts {C : Type} (json_dumps : list Py.dict → string)
    (self : @DatasetGenerator C) (g : Globals) (f : Formatter)
    (collection_name : string) (batch_size : Z) (w : @World C)
    (all_contents : list Py.value) (k : nat) (i : Z) (response : list Py.dict)
    (w' : @World C) (e : Py.exn) (c' : C) :
  1 ≤ batch_size →
  g_data_formatter g = Some f →
  (fetch_all_cleaned_content collection_name w).1 = inr all_contents →
  batch_starts (Py.len all_contents) batch_size !! k = Some i →
  for_ (take k (batch_starts (Py.len all_contents) batch_size)) []
    (batch_step self g all_contents batch_size)
    (scrolled w collection_name 10000)
  = (inr response, w') →
  send_prompt (api_communicator self) (client w')
    (batch_prompt f all_contents batch_size i) = (inl e, c') →
  let r := generate_training_data json_dumps self g collection_name batch_size w in
  r.1 = inl e
  ∧ prompts r.2 = prompts w' ++ [batch_prompt f all_contents batch_size i]
  ∧ client r.2 = c'
  ∧ files r.2 = files w
  ∧ artifacts r.2 = artifacts w.
Proof.
  intros Hb Hg Hfetch Hk Hbefore Hsend. cbn zeta.
  pose proof (build_response_client_error self g f all_contents batch_size
                Hg ltac:(lia) _ k i response w' e c' Hk Hbefore Hsend) as Hbuild.
  pose proof (generate_raises json_dumps self g collection_name batch_size
                w all_contents e _ Hfetch Hbuild) as Hrun.
  destruct (generate_raises_no_push json_dumps self g collection_name
              batch_size w e) as (Hfiles & Hartifacts & _);
    [by rewrite Hrun|].
  rewrite Hfiles, Hartifacts. by rewrite Hrun.
Qed.

Lemma completion_failure_aborts_witness :
  let r := generate_training_data (λ _, "") script_generator
             (module_globals "__main__") "cleaned_posts" 1
             (script_world scenario_store
                [ inr [ [("instruction", Py.VStr "i1"); ("content", Py.VStr "0")] ];
                  inl (Py.External "JSONDecodeError" "Expecting value");
                  inr [ [("instruction", Py.VStr "i3"); ("content", Py.VStr "2")] ] ]) in
  r.1 = inl (Py.External "JSONDecodeError" "Expecting value")
  ∧ prompts r.2 = [ batch_prompt DataFormatter_new scenario_contents 1 0;
                    batch_prompt DataFormatter_new scenario_contents 1 1 ]
  ∧ client r.2
    = [ inr [ [("instruction", Py.VStr "i3"); ("content", Py.VStr "2")] ] ]
  ∧ files r.2 = ∅
  ∧ artifacts r.2 = [].
Proof.
  refine (completion_failure_aborts (λ _, "") script_generator
            (module_globals "__main__") DataFormatter_new "cleaned_posts" 1
            (script_world scenario_store
               [ inr [ [("instruction", Py.VStr "i1"); ("content", Py.VStr "0")] ];
                 inl (Py.External "JSONDecodeError" "Expecting value");
                 inr [ [("instruction", Py.VStr "i3"); ("content", Py.VStr "2")] ] ])
            scenario_contents 1%nat 1
            [ [("instruction", Py.VStr "i1"); ("content", Py.VStr "A")] ]
            (sent (scrolled
                     (script_world scenario_store
                        [ inl (Py.External "JSONDecodeError" "Expecting value");
                          inr [ [("instruction", Py.VStr "i3");
                                 ("content", Py.VStr "2")] ] ])
                     "cleaned_posts" 10000)
               [ inl (Py.External "JSONDecodeError" "Expecting value");
                 inr [ [("instruction", Py.VStr "i3"); ("content", Py.VStr "2")] ] ]
               [batch_prompt DataFormatter_new scenario_contents 1 0])
            (Py.External "JSONDecodeError" "Expecting value")
            [ inr [ [("instruction", Py.VStr "i3"); ("content", Py.VStr "2")] ] ]
            _ _ _ _ _ _).
  - lia.
  - reflexivity.
  - vm_compute. reflexivity.
  - vm_compute. reflexivity.
  - vm_compute. reflexivity.
  - reflexivity.
Defined.

(** ** C8: failures of the artifact push *)

(** C8.  Whatever fails inside [push_to_comet], the method returns normally:
    the failure is logged at level [ERROR] with the text of the exception,
    and [generate_training_data], whose last step it is, returns normally as
    well.  The file is written before the artifact is created and uploaded,
    so when nothing fails up to the end of the writing, the file
    [<collection_name>.json] holds the serialised dataset after the call,
    even if the creation of the artifact, the upload or the end of the
    experiment fails. *)
Theorem push_failures_contained {C : Type} (json_dumps : list Py.dict → string)
    (data : list Py.dict) (collection_name : string) (w : @World C) :
  let r := push_to_comet json_dumps data collection_name w in
  r.1 = inr ()
  ∧ (∀ e, first_fault (faults w) = Some e →
       ∃ infos,
         logs r.2
         = logs w ++ infos
             ++ [(ERROR, "Failed to push data to Comet: " +:+ Py.exn_str e)])
  ∧ (file_written (faults w) →
       files r.2 !! (collection_name +:+ ".json") = Some (json_dumps data))
  ∧ (∀ (self : @DatasetGenerator C) g batch_size w0 all_contents,
       (fetch_all_cleaned_content collection_name w0).1 = inr all_contents →
       build_response self g all_contents batch_size
         (scrolled w0 collection_name 10000) = (inr data, w) →
       generate_training_data json_dumps self g collection_name batch_size w0
       = (inr (), r.2)).
Proof.
  cbn zeta. split; [apply push_to_comet_returns|].
  split; [intros e; apply push_to_comet_logs_fault|].
  split; [apply push_to_comet_file|].
  intros self g batch_size w0 all_contents Hfetch Hbuild.
  rewrite (generate_pushes json_dumps self g collection_name batch_size
             w0 all_contents data w Hfetch Hbuild).
  pose proof (push_to_comet_returns json_dumps data collection_name w) as Hr.
  by destruct (push_to_comet json_dumps data collection_name w) as [[e|[]] w'].
Qed.

Lemma push_failures_contained_witness :
  let r := push_to_comet (λ _, "[]") [] "cleaned_posts"
             (mkWorld (paged ∅) [] () [] ∅ upload_fails [] false []) in
  r.1 = inr ()
  ∧ (∃ infos,
       logs r.2
       = [] ++ infos ++ [(ERROR, "Failed to push data to Comet: upload failed")])
  ∧ files r.2 !! "cleaned_posts.json" = Some "[]".
Proof.
  destruct (push_failures_contained (λ _, "[]") [] "cleaned_posts"
              (mkWorld (paged ∅) [] () [] ∅ upload_fails [] false []))
    as (Hreturns & Hlogged & Hfile & _).
  split; [exact Hreturns|]. split.
  - exact (Hlogged (Py.External "ConnectionError" "upload failed") eq_refl).
  - exact (Hfile (conj eq_refl (conj eq_refl eq_refl))).
Defined.

(** ** C9: the boundaries *)

(** C9.  A collection that yields no record sends no prompt: the run goes
    straight to [push_to_comet] with the empty dataset.  A collection that
    yields exactly [batch_size] records is one batch: the run sends exactly
    one prompt, that of all the records numbered from 0. *)
Theorem boundary_batches {C : Type} (json_dumps : list Py.dict → string)
    (self : @DatasetGenerator C) (g : Globals) (collection_name : string)
    (batch_size : Z) (w : @World C) :
  let r := generate_training_data json_dumps self g collection_name batch_size w in
  ((fetch_all_cleaned_content collection_name w).1 = inr [] →
   batch_size ≠ 0 →
   r = push_to_comet json_dumps [] collection_name
         (scrolled w collection_name 10000)
   ∧ prompts r.2 = prompts w ∧ client r.2 = client w)
  ∧ (∀ (f : Formatter) (all_contents : list Py.value),
       (fetch_all_cleaned_content collection_name w).1 = inr all_contents →
       Py.len all_contents = batch_size →
       1 ≤ batch_size →
       g_data_formatter g = Some f →
       Py.range 0 (Py.len all_contents) batch_size = inr [0]
       ∧ Py.slice all_contents 0 (0 + batch_size) = all_contents
       ∧ prompts r.2 = prompts w ++ [format_prompt f all_contents 0]).
Proof.
  cbn zeta. split.
  - intros Hfetch Hb.
    assert (build_response self g [] batch_size (scrolled w collection_name 10000)
            = (inr [], scrolled w collection_name 10000)) as Hbuild.
    { unfold build_response, Py.range.
      destruct (Z.eqb_spec batch_size 0); [done|]. reflexivity. }
    rewrite (generate_pushes json_dumps self g collection_name batch_size
               w [] [] _ Hfetch Hbuild).
    split; [done|].
    by destruct (push_to_comet_frame json_dumps [] collection_name
                   (scrolled w collection_name 10000))
      as (_ & _ & -> & -> & _).
  - intros f all_contents Hfetch Hlen Hb Hg.
    assert ((Py.len all_contents + batch_size - 1) / batch_size = 1) as Hone
      by (symmetry; apply (Z.div_unique_pos _ _ 1 (batch_size - 1)); lia).
    assert (Py.range 0 (Py.len all_contents) batch_size = inr [0]) as Hrange.
    { rewrite range_batch_starts by lia. unfold batch_starts.
      rewrite Hone. simpl. do 2 f_equal. }
    assert (Py.slice all_contents 0 (0 + batch_size) = all_contents) as Hslice.
    { rewrite slice_take_drop by lia. simpl.
      apply take_ge. unfold Py.len in Hlen. lia. }
    split; [done|]. split; [done|].
    destruct (generate_prompts json_dumps self g collection_name batch_size
                w all_contents Hfetch) as [-> _].
    unfold build_response. rewrite Hrange.
    erewrite bind_inr by reflexivity. cbn [for_].
    pose proof (batch_step_world self g f all_contents batch_size [] 0
                  (scrolled w collection_name 10000) Hg) as Hworld.
    unfold bind.
    destruct (batch_step self g all_contents batch_size [] 0
                (scrolled w collection_name 10000)) as [[e|data] w'];
      simpl in Hworld; subst w'; simpl;
      unfold batch_prompt; by rewrite Hslice.
Qed.

Lemma boundary_batches_witness :
  (let r := generate_training_data (λ _, "") script_generator
              (module_globals "__main__") "cleaned_posts" 2
              (script_world blank_posts scenario_answers) in
   r = push_to_comet (λ _, "") [] "cleaned_posts"
         (scrolled (script_world blank_posts scenario_answers)
            "cleaned_posts" 10000)
   ∧ prompts r.2 = [] ∧ client r.2 = scenario_answers)
  ∧ (let r := generate_training_data (λ _, "") script_generator
                (module_globals "__main__") "cleaned_posts" 3
                (script_world scenario_store []) in
     Py.range 0 (Py.len scenario_contents) 3 = inr [0]
     ∧ Py.slice scenario_contents 0 (0 + 3) = scenario_contents
     ∧ prompts r.2 = [] ++ [DataFormatter.format_prompt scenario_contents 0]).
Proof.
  split.
  - refine (proj1 (boundary_batches (λ _, "") script_generator
                     (module_globals "__main__") "cleaned_posts" 2
                     (script_world blank_posts scenario_answers)) _ _).
    + vm_compute. reflexivity.
    + discriminate.
  - refine (proj2 (boundary_batches (λ _, "") script_generator
                     (module_globals "__main__") "cleaned_posts" 3
                     (script_world scenario_store []))
              DataFormatter_new scenario_contents _ _ _ _).
    + vm_compute. reflexivity.
    + reflexivity.
    + lia.
    + reflexivity.
Defined.

(** ** C10: two runs over the same snapshot *)

Section Determinism.

Context {C : Type} (json_dumps : list Py.dict → string).
Context (self : @DatasetGenerator C) (g : Globals).
Context (collection_name : string) (batch_size : Z).

Lemma respects_push_to_comet P1 P2 data :
  respects (in_step (C := C) collection_name P1 P2)
    (push_to_comet json_dumps data collection_name).
Proof.
  intros w1 w2 (Hstore & Hclient & ps & H1 & H2).
  rewrite !push_to_comet_returns. split; [done|].
  destruct (push_to_comet_frame json_dumps data collection_name w1)
    as (S1 & _ & C1 & Q1 & _).
  destruct (push_to_comet_frame json_dumps data collection_name w2)
    as (S2 & _ & C2 & Q2 & _).
  unfold in_step. rewrite S1, S2, C1, C2, Q1, Q2. eauto.
Qed.

Lemma respects_generate_training_data P1 P2 :
  respects (in_step (C := C) collection_name P1 P2)
    (generate_training_data json_dumps self g collection_name batch_size).
Proof.
  unfold generate_training_data.
  apply respects_bind; [apply respects_fetch|]. intros l.
  apply respects_bind; [apply respects_build_response|]. intros data.
  apply respects_push_to_comet.
Qed.

End Determinism.

(** C10.  Two runs of [generate_training_data] for a collection, from worlds
    that hold the same snapshot of the collection and whose completion
    service is in the same state, so that it gives the same sequence of
    answers, end alike: with the same exception or both normally, having
    sent the same prompts and left the service in the same state; and when
    both return normally and both write their file, the two files hold the
    same bytes.  The worlds may differ in everything else: other
    collections, files, earlier prompts, faults of the artifact push.  The prompt
    formatter is a function from the batch and the start index to the
    prompt, outside the monad of effects: it reads and changes nothing. *)
Theorem generate_training_data_deterministic {C : Type}
    (json_dumps : list Py.dict → string) (self : @DatasetGenerator C)
    (g : Globals) (collection_name : string) (batch_size : Z)
    (w1 w2 : @World C) :
  (∀ limit, store w1 collection_name limit = store w2 collection_name limit) →
  client w1 = client w2 →
  let r1 := generate_training_data json_dumps self g collection_name batch_size w1 in
  let r2 := generate_training_data json_dumps self g collection_name batch_size w2 in
  r1.1 = r2.1
  ∧ client r1.2 = client r2.2
  ∧ (∃ ps, prompts r1.2 = prompts w1 ++ ps ∧ prompts r2.2 = prompts w2 ++ ps)
  ∧ (r1.1 = inr () →
     file_written (faults w1) → file_written (faults w2) →
     ∃ bytes,
       files r1.2 !! (collection_name +:+ ".json") = Some bytes
       ∧ files r2.2 !! (collection_name +:+ ".json") = Some bytes).
Proof.
  intros Hstore Hclient. cbn zeta.
  assert (in_step collection_name (prompts w1) (prompts w2) w1 w2) as Hstep.
  { split; [done|]. split; [done|]. exists []. by rewrite !app_nil_r. }
  destruct (respects_generate_training_data json_dumps self g collection_name
              batch_size _ _ w1 w2 Hstep) as (Hsame & _ & Hc & Hps).
  split; [done|]. split; [done|]. split; [done|].
  intros Hok Hw1 Hw2.
  destruct (respects_fetch collection_name _ _ w1 w2 Hstep) as [Hfetch Hstep'].
  rewrite !fetch_world in Hstep'.
  destruct (fetch_all_cleaned_content collection_name w1).1 as [e|l] eqn:Hf1.
  { unfold generate_training_data, bind in Hok.
    destruct (fetch_all_cleaned_content collection_name w1) as [[?|?] ?];
      simpl in *; simplify_eq. }
  symmetry in Hfetch.
  destruct (respects_build_response collection_name _ _ self g l batch_size
              _ _ Hstep') as [Hbuild _].
  destruct (build_response self g l batch_size (scrolled w1 collection_name 10000))
    as [[e|data] w1'] eqn:Hb1.
  { rewrite (generate_raises _ _ _ _ _ _ _ _ _ Hf1 Hb1) in Hok. done. }
  destruct (build_response self g l batch_size (scrolled w2 collection_name 10000))
    as [[e|data'] w2'] eqn:Hb2; simpl in Hbuild; simplify_eq.
  rewrite (generate_pushes _ _ _ _ _ _ _ _ _ Hf1 Hb1).
  rewrite (generate_pushes _ _ _ _ _ _ _ _ _ Hfetch Hb2).
  pose proof (preserves_build_response faults self g l batch_size
                ltac:(done) (scrolled w1 collection_name 10000)) as F1.
  pose proof (preserves_build_response faults self g l batch_size
                ltac:(done) (scrolled w2 collection_name 10000)) as F2.
  rewrite Hb1 in F1. rewrite Hb2 in F2. simpl in F1, F2.
  eexists.
  split; apply push_to_comet_file; [by rewrite F1|by rewrite F2].
Qed.

Lemma generate_training_data_deterministic_witness :
  let w1 := mkWorld (paged scenario_store) [] scenario_unit_answers [] ∅ no_faults []
              false [] in
  let w2 := mkWorld (paged (<["cleaned_articles" := []]> scenario_store))
              [("cleaned_articles", 10000)] scenario_unit_answers
              ["an earlier prompt"] {[ "cleaned_posts.json" := "stale" ]}
              upload_fails [] false [(INFO, "earlier run")] in
  let r1 := generate_training_data (λ _, "") script_generator
              (module_globals "__main__") "cleaned_posts" 1 w1 in
  let r2 := generate_training_data (λ _, "") script_generator
              (module_globals "__main__") "cleaned_posts" 1 w2 in
  r1.1 = r2.1
  ∧ client r1.2 = client r2.2
  ∧ (∃ ps, prompts r1.2 = prompts w1 ++ ps ∧ prompts r2.2 = prompts w2 ++ ps)
  ∧ (∃ bytes,
       files r1.2 !! "cleaned_posts.json" = Some bytes
       ∧ files r2.2 !! "cleaned_posts.json" = Some bytes).
Proof.
  intros w1 w2.
  destruct (generate_training_data_deterministic (λ _, "") script_generator
              (module_globals "__main__") "cleaned_posts" 1 w1 w2
              (λ _, eq_refl) eq_refl)
    as (Hresult & Hclient & Hprompts & Hfiles).
  split; [exact Hresult|]. split; [exact Hclient|]. split; [exact Hprompts|].
  apply Hfiles.
  - vm_compute. reflexivity.
  - repeat split.
  - repeat split.
Defined.

(** * Further properties of the formatter *)

Section FormatData.

Implicit Types (l : list Py.value) (text : string) (index s : Z) (e : bool).

Lemma format_data_loop_prefix text index l e s :
  DataFormatter.format_data_loop text index l e s
  = text +:+ DataFormatter.format_data_loop "" index l e s.
Proof.
  revert text index. induction l as [|v l IH]; intros text index; simpl.
  - by rewrite append_nil_r.
  - rewrite IH. rewrite (IH (_ +:+ _)).
    destruct e; simpl; by rewrite ?append_assoc.
Qed.

Lemma format_data_loop_shift text index d l e s :
  DataFormatter.format_data_loop text (index + d) l e s
  = DataFormatter.format_data_loop text index l e (s + d).
Proof.
  revert text index. induction l as [|v l IH]; intros text index; simpl; [done|].
  replace (index + d + 1) with (index + 1 + d) by lia. rewrite IH.
  by replace (s + (index + d)) with (s + d + index) by lia.
Qed.

Lemma format_data_loop_app text index l1 l2 e s :
  DataFormatter.format_data_loop text index (l1 ++ l2) e s
  = DataFormatter.format_data_loop
      (DataFormatter.format_data_loop text index l1 e s)
      (index + Py.len l1) l2 e s.
Proof.
  revert text index. induction l1 as [|v l1 IH]; intros text index; simpl.
  - by rewrite Z.add_0_r.
  - rewrite IH. f_equal. unfold Py.len. simpl length. lia.
Qed.

Lemma format_data_append l1 l2 e s :
  DataFormatter.format_data (l1 ++ l2) e s
  = DataFormatter.format_data l1 e s
      +:+ DataFormatter.format_data l2 e (s + Py.len l1).
Proof.
  unfold DataFormatter.format_data.
  rewrite format_data_loop_app, format_data_loop_prefix. f_equal.
  rewrite <- (format_data_loop_shift "" 0 (Py.len l1)). by rewrite Z.add_0_l.
Qed.

End FormatData.

(** The text for a batch split in two is the text of the first part followed
    by the text of the second, numbered from where the first part stops:
    numbering is by position in the whole collection. *)
Theorem format_data_app (l1 l2 : list Py.value) (is_example : bool)
    (start_index : Z) :
  DataFormatter.format_data (l1 ++ l2) is_example start_index
  = DataFormatter.format_data l1 is_example start_index
      +:+ DataFormatter.format_data l2 is_example (start_index + Py.len l1).
Proof. apply format_data_append. Qed.

(** With [is_example] set, [format_data] writes no marker: its result is the
    texts of the items, one per line, whatever the start index. *)
Theorem format_data_example (data_points : list Py.value) (start_index : Z) :
  DataFormatter.format_data data_points true start_index
  = join ((λ v, Py.str v +:+ Py.nl) <$> data_points).
Proof.
  unfold DataFormatter.format_data. generalize 0.
  induction data_points as [|v l IH]; intros index; simpl; [done|].
  rewrite format_data_loop_prefix, IH. done.
Qed.

Section Lines.

Lemma str_contains_app c (s t : string) :
  str_contains c (s +:+ t) = str_contains c s || str_contains c t.
Proof.
  induction s as [|a s IH]; [done|].
  rewrite append_cons. simpl. rewrite IH. by rewrite orb_assoc.
Qed.

(** Splitting at a separator that the first piece does not contain. *)
Lemma str_split_app c (a rest : string) :
  str_contains c a = false →
  str_split c (a +:+ String c rest) = a :: str_split c rest.
Proof.
  induction a as [|x a IH]; intros Ha.
  - change ("" +:+ String c rest) with (String c rest). simpl.
    by rewrite Ascii.eqb_refl.
  - rewrite append_cons. simpl in *.
    apply orb_false_iff in Ha as [Hx Ha]. rewrite Hx, (IH Ha). done.
Qed.

Lemma pretty_N_char_not_nl d : Ascii.eqb (pretty_N_char d) "010" = false.
Proof. unfold pretty_N_char. by repeat case_match. Qed.

Lemma pretty_N_go_no_nl (x : N) (s : string) :
  str_contains "010" (pretty_N_go x s) = str_contains "010" s.
Proof.
  revert s. induction (N.lt_wf_0 x) as [x _ IH]; intros s.
  assert (x = 0 ∨ 0 < x)%N as [->|Hpos] by lia.
  - by rewrite pretty_N_go_0.
  - rewrite pretty_N_go_step by done.
    rewrite IH by (by apply N.div_lt). simpl.
    by rewrite pretty_N_char_not_nl.
Qed.

Lemma pretty_N_no_nl (x : N) : str_contains "010" (pretty x) = false.
Proof.
  unfold pretty, pretty_N. case_decide; [done|]. by rewrite pretty_N_go_no_nl.
Qed.

Lemma nl_append (s : string) : Py.nl +:+ s = String "010"%char s.
Proof. reflexivity. Qed.

(** The decimal form of a number has no line feed in it. *)
Lemma pretty_Z_no_nl (x : Z) : str_contains "010" (pretty x) = false.
Proof.
  destruct x as [|p|p]; [done|..].
  - apply (pretty_N_no_nl (Npos p)).
  - change (pretty (Z.neg p)) with ("-" +:+ pretty (Npos p)).
    rewrite str_contains_app, pretty_N_no_nl. done.
Qed.

End Lines.

(** Read back line by line, the text that [format_data] writes for items
    without line feeds is, for each item in order, the line of its marker
    and the line of its text: the items and their numbers can be recovered
    from the prompt. *)
Theorem format_data_lines (data_points : list Py.value) (start_index : Z) :
  Forall (λ v, str_contains "010" (Py.str v) = false) data_points →
  str_split "010" (DataFormatter.format_data data_points false start_index)
  = data_lines start_index data_points ++ [""].
Proof.
  intros Hitems. revert start_index.
  induction Hitems as [|v l Hv _ IH]; intros start_index; [done|].
  change (v :: l) with ([v] ++ l). rewrite format_data_append.
  unfold data_lines. cbn [app imap concat].
  change (DataFormatter.format_data [v] false start_index)
    with ("" +:+ (("Content number " +:+ pretty (start_index + 0) +:+ Py.nl)
                  +:+ (Py.str v +:+ Py.nl))).
  change ("" +:+ ?x) with x.
  rewrite !append_assoc, !nl_append, <- append_assoc.
  change ("Content number " +:+ pretty (start_index + 0))
    with (marker_line (start_index + 0)).
  rewrite (str_split_app "010" (marker_line (start_index + 0)))
    by (unfold marker_line; by rewrite str_contains_app, pretty_Z_no_nl).
  rewrite (str_split_app "010" (Py.str v)) by done.
  rewrite IH. unfold data_lines. simpl. do 3 f_equal.
  apply (f_equal (@concat string)), imap_ext. intros k w _. simpl.
  by replace (start_index + Py.len [v] + Z.of_nat k)
    with (start_index + Z.of_nat (S k)) by (unfold Py.len; simpl; lia).
Qed.

Lemma format_data_lines_witness :
  str_split "010"
    (DataFormatter.format_data [Py.VStr "first post"; Py.VNone] false 7)
  = ["Content number 7"; "first post"; "Content number 8"; "None"; ""].
Proof.
  refine (format_data_lines [Py.VStr "first post"; Py.VNone] 7 _).
  repeat constructor.
Defined.

(** For a batch that is not empty, the prompt pins down the start index:
    batches of the same records at different positions get different
    prompts. *)
Theorem format_prompt_start_inj (inference_posts : list Py.value)
    (start1 start2 : Z) :
  inference_posts ≠ [] →
  start1 ≠ start2 →
  DataFormatter.format_prompt inference_posts start1
  ≠ DataFormatter.format_prompt inference_posts start2.
Proof.
  intros Hne Hstart Heq. destruct inference_posts as [|v l]; [done|].
  unfold DataFormatter.format_prompt, DataFormatter.format_batch in Heq.
  do 2 apply String.app_inj in Heq.
  change (v :: l) with ([v] ++ l) in Heq. rewrite !format_data_append in Heq.
  assert (∀ s, DataFormatter.format_data [v] false s
               +:+ DataFormatter.format_data l false (s + Py.len [v])
               = marker_line (s + 0)
                   +:+ String "010"%char
                         ((Py.str v +:+ Py.nl)
                            +:+ DataFormatter.format_data l false (s + Py.len [v])))
    as Hshape.
  { intros s.
    change (DataFormatter.format_data [v] false s)
      with ("" +:+ (("Content number " +:+ pretty (s + 0) +:+ Py.nl)
                    +:+ (Py.str v +:+ Py.nl))).
    change ("" +:+ ?x) with x. unfold marker_line.
    rewrite !append_assoc. by rewrite nl_append. }
  rewrite !Hshape in Heq. apply (f_equal (str_split "010")) in Heq.
  rewrite (str_split_app "010" (marker_line (start1 + 0))),
    (str_split_app "010" (marker_line (start2 + 0))) in Heq
    by (unfold marker_line; by rewrite str_contains_app, pretty_Z_no_nl).
  injection Heq as Hmarker _. unfold marker_line in Hmarker.
  apply String.app_inj, (inj pretty) in Hmarker. lia.
Qed.

Lemma format_prompt_start_inj_witness :
  DataFormatter.format_prompt [Py.VStr "A"] 0
  ≠ DataFormatter.format_prompt [Py.VStr "A"] 1.
Proof.
  apply (format_prompt_start_inj [Py.VStr "A"] 0 1); [discriminate|lia].
Defined.

(** * Further properties of the fetch *)

Section FetchMore.

Context {C : Type}.
Implicit Types (w : @World C) (page : list Point).

Lemma kept_contents_cons point page :
  kept_contents (point :: page)
  = match payload point !! "cleaned_content" with
    | Some v =>
        if Py.truthy v then v :: kept_contents page else kept_contents page
    | None => kept_contents page
    end.
Proof.
  unfold kept_contents. simpl.
  destruct (payload point !! "cleaned_content") as [v|]; [|done].
  by destruct (Py.truthy v).
Qed.

Lemma kept_contents_truthy page :
  Forall (λ v, Py.truthy v = true) (kept_contents page).
Proof.
  induction page as [|point page IH]; [constructor|].
  rewrite kept_contents_cons.
  destruct (payload point !! "cleaned_content") as [v|]; [|done].
  destruct (Py.truthy v) eqn:Hv; [|done]. by constructor.
Qed.

Lemma length_kept_contents page :
  (length (kept_contents page) ≤ length page)%nat.
Proof.
  induction page as [|point page IH]; [done|].
  rewrite kept_contents_cons.
  destruct (payload point !! "cleaned_content") as [v|]; [|simpl; lia].
  destruct (Py.truthy v); simpl; lia.
Qed.

(** The loop goes through only if every record has the entry. *)
Lemma for_fetch_step_inv page (acc l : list Py.value) w w' :
  for_ page acc fetch_step w = (inr l, w') →
  Forall (λ point, is_Some (payload point !! "cleaned_content")) page.
Proof.
  revert acc. induction page as [|point page IH]; intros acc; [by constructor|].
  simpl. unfold bind, fetch_step at 1.
  destruct (payload point !! "cleaned_content") as [v|] eqn:Hv; [|done].
  destruct (Py.truthy v); simpl; intros Hrest; (constructor; [by eexists|]);
    by eapply IH.
Qed.

(** The loop stops with [KeyError] at the first record without the entry. *)
Lemma for_fetch_step_missing page (acc : list Py.value) w :
  Exists (λ point, payload point !! "cleaned_content" = None) page →
  for_ page acc fetch_step w = (inl (Py.KeyError "cleaned_content"), w).
Proof.
  intros Hmissing. revert acc.
  induction page as [|point page IH]; intros acc; [by inversion Hmissing|].
  simpl. unfold bind, fetch_step at 1.
  destruct (payload point !! "cleaned_content") as [v|] eqn:Hv; [|done].
  apply Exists_cons in Hmissing as [Hpoint|Hrest]; [congruence|].
  destruct (Py.truthy v); simpl; by apply IH.
Qed.

End FetchMore.

(** A fetch that returns has met no record without the [cleaned_content]
    entry, and what it returns holds neither [None] nor an empty text: every
    content that reaches a prompt passes the truth test, and there are at
    most as many contents as records on the page. *)
Theorem fetch_returns_texts {C : Type} (w : @World C)
    (collection_name : string) (all_contents : list Py.value) :
  (fetch_all_cleaned_content collection_name w).1 = inr all_contents →
  ∃ page next_offset,
    store w collection_name 10000 = inr (page, next_offset)
    ∧ Forall (λ point, is_Some (payload point !! "cleaned_content")) page
    ∧ all_contents = kept_contents page
    ∧ (length all_contents ≤ length page)%nat
    ∧ Forall (λ v, Py.truthy v = true ∧ v ≠ Py.VNone ∧ v ≠ Py.VStr "")
        all_contents.
Proof.
  unfold fetch_all_cleaned_content, bind, scroll.
  destruct (store w collection_name 10000) as [e|[page next_offset]]; [done|].
  cbn zeta. cbn [fst]. intros Hloop.
  destruct (for_ page [] fetch_step _) as [r w'] eqn:Hfor.
  simpl in Hloop. subst r.
  pose proof (for_fetch_step_inv _ _ _ _ _ Hfor) as Hkeys.
  rewrite (for_fetch_step page [] _ Hkeys) in Hfor. simplify_eq.
  exists page, next_offset. split; [done|]. split; [done|]. split; [done|].
  split; [apply length_kept_contents|].
  eapply Forall_impl; [apply kept_contents_truthy|].
  intros v Htruthy. split; [done|]. split; intros ->; done.
Qed.

Lemma fetch_returns_texts_witness :
  ∃ page next_offset,
    paged three_posts "cleaned_posts" 10000 = inr (page, next_offset)
    ∧ [Py.VStr "A"; Py.VStr "C"] = kept_contents page
    ∧ Forall (λ v, Py.truthy v = true ∧ v ≠ Py.VNone ∧ v ≠ Py.VStr "")
        [Py.VStr "A"; Py.VStr "C"].
Proof.
  destruct (fetch_returns_texts
              (mkWorld (paged three_posts) [] () [] ∅ no_faults [] false [])
              "cleaned_posts" [Py.VStr "A"; Py.VStr "C"])
    as (page & next_offset & Hstore & _ & Hkept & _ & Htexts).
  - vm_compute. reflexivity.
  - exists page, next_offset. split; [exact Hstore|].
    split; [exact Hkept|exact Htexts].
Defined.

(** A record of the page without the [cleaned_content] entry makes the
    fetch raise [KeyError], wherever it is on the page and whatever the
    other records hold; the one [scroll] call has been made. *)
Theorem fetch_missing_key_raises {C : Type} (w : @World C)
    (collection_name : string) (page : list Point) (next_offset : option Z) :
  store w collection_name 10000 = inr (page, next_offset) →
  Exists (λ point, payload point !! "cleaned_content" = None) page →
  fetch_all_cleaned_content collection_name w
  = (inl (Py.KeyError "cleaned_content"), scrolled w collection_name 10000).
Proof.
  intros Hstore Hmissing.
  unfold fetch_all_cleaned_content, bind, scroll. rewrite Hstore. cbn zeta.
  cbn [fst]. by rewrite for_fetch_step_missing.
Qed.

Lemma fetch_missing_key_raises_witness :
  fetch_all_cleaned_content "cleaned_posts"
    (mkWorld (paged post_missing_among) [] () [] ∅ no_faults [] false [])
  = (inl (Py.KeyError "cleaned_content"),
     scrolled (mkWorld (paged post_missing_among) [] () [] ∅ no_faults [] false [])
       "cleaned_posts" 10000).
Proof.
  refine (fetch_missing_key_raises
            (mkWorld (paged post_missing_among) [] () [] ∅ no_faults [] false [])
            "cleaned_posts"
            [ mkPoint 1 {[ "cleaned_content" := Py.VStr "A" ]};
              mkPoint 2 {[ "title" := Py.VStr "B" ]};
              mkPoint 3 {[ "cleaned_content" := Py.VStr "C" ]} ]
            None _ _).
  - vm_compute. reflexivity.
  - apply Exists_cons_tl, Exists_cons_hd. reflexivity.
Defined.

(** Whatever makes the fetch raise, an error of the store or a record
    without the entry, comes out of [generate_training_data] as it is: no
    prompt is sent, nothing is written or logged. *)
Theorem fetch_failure_aborts {C : Type} (json_dumps : list Py.dict → string)
    (self : @DatasetGenerator C) (g : Globals) (collection_name : string)
    (batch_size : Z) (w : @World C) (e : Py.exn) :
  (fetch_all_cleaned_content collection_name w).1 = inl e →
  generate_training_data json_dumps self g collection_name batch_size w
  = (inl e, scrolled w collection_name 10000).
Proof.
  intros Hfetch. unfold generate_training_data.
  apply bind_inl. rewrite <- fetch_world, <- Hfetch.
  by destruct (fetch_all_cleaned_content collection_name w).
Qed.

Lemma fetch_failure_aborts_witness :
  generate_training_data (λ _, "") script_generator (module_globals "__main__")
    "cleaned_articles" 1 (script_world scenario_store scenario_answers)
  = (inl (Py.External "UnexpectedResponse" "collection not found"),
     scrolled (script_world scenario_store scenario_answers)
       "cleaned_articles" 10000).
Proof.
  refine (fetch_failure_aborts (λ _, "") script_generator
            (module_globals "__main__") "cleaned_articles" 1
            (script_world scenario_store scenario_answers) _ _).
  vm_compute. reflexivity.
Defined.

(** * Further properties of the loop *)

Section BuildMore.

Context {C : Type}.
Implicit Types (w : @World C) (l : list Py.value) (resp : list Py.dict).

(** The overwrite loop over the positions of [todo], with objects [after]
    it that the loop does not reach. *)
Lemma overwrite_loop_tail l (before todo after : list Py.dict) w :
  (length before + length todo ≤ length l)%nat →
  for_ ((λ k : nat, Py.len before + Z.of_nat k) <$> seq 0 (length todo))
    (before ++ todo ++ after) (overwrite_content l) w
  = (inr (before
            ++ overwritten todo (take (length todo) (drop (length before) l))
            ++ after),
     w).
Proof.
  revert before. induction todo as [|d todo IH]; intros before Hlen; [done|].
  simpl in Hlen.
  destruct (lookup_lt_is_Some_2 l (length before) ltac:(lia)) as [v Hv].
  cbn [length seq fmap list_fmap for_ app].
  replace (Py.len before + Z.of_nat 0) with (Z.of_nat (length before))
    by (unfold Py.len; lia).
  erewrite bind_inr; [|apply (overwrite_content_in_range _ _ _ v d);
                        [done|by apply list_lookup_middle]].
  replace (length before) with (length before + 0)%nat at 1 by lia.
  rewrite insert_app_r. cbn [insert list_insert].
  rewrite (cons_middle _ before (todo ++ after)), app_assoc.
  rewrite <- fmap_S_seq, <- list_fmap_compose.
  erewrite (list_fmap_ext _
              (λ k : nat, Py.len (before ++ [Py.dict_setitem d "content" v])
                          + Z.of_nat k));
    [|intros _ k _; unfold Py.len; rewrite length_app; simpl; lia].
  rewrite IH by (rewrite length_app; simpl; lia).
  rewrite length_app. simpl.
  rewrite (drop_S l v (length before) Hv). simpl.
  rewrite <- app_assoc. simpl.
  by replace (length before + 1)%nat with (S (length before)) by lia.
Qed.

Lemma getitem_error {A} (xs : list A) j e :
  Py.getitem xs j = inl e → e = Py.index_error.
Proof.
  unfold Py.getitem. destruct (Py.index_of xs j) as [p|]; [|congruence].
  destruct (xs !! p); congruence.
Qed.

(** A position past the end of either list makes the overwrite raise. *)
Lemma overwrite_content_out_of_range l resp j w :
  Py.len l ≤ j ∨ Py.len resp ≤ j →
  overwrite_content l resp j w = (inl Py.index_error, w).
Proof.
  intros [Hl|Hresp]; [by apply overwrite_content_past_end|].
  unfold overwrite_content, bind, lift.
  destruct (Py.getitem l j) as [e|v] eqn:Hv.
  - by rewrite (getitem_error _ _ _ Hv).
  - by rewrite getitem_out_of_range.
Qed.

End BuildMore.

(** When the service answers a batch with fewer objects than the batch size,
    the round raises [IndexError] once its prompt is sent: the answer is
    neither padded nor accepted short. *)
Theorem short_answer_raises {C : Type} (self : @DatasetGenerator C)
    (g : Globals) (f : Formatter) (all_contents : list Py.value)
    (batch_size : Z) (response : list Py.dict) (i : Z) (w : @World C)
    (answer : list Py.dict) (c' : C) :
  g_data_formatter g = Some f →
  Py.len response = i →
  send_prompt (api_communicator self) (client w)
    (batch_prompt f all_contents batch_size i) = (inr answer, c') →
  Py.len answer < batch_size →
  batch_step self g all_contents batch_size response i w
  = (inl Py.index_error,
     sent w c' [batch_prompt f all_contents batch_size i]).
Proof.
  intros Hg Hi Hsend Hshort. unfold batch_step, load_data_formatter.
  rewrite Hg. erewrite bind_inr by reflexivity.
  erewrite bind_inr by (by apply call_send_prompt_eq).
  pose proof (len_nonneg response). pose proof (len_nonneg answer).
  pose proof (len_nonneg all_contents).
  replace (Py.range i (i + batch_size) 1)
    with (Py.range i (i + Z.of_nat (Z.to_nat batch_size)) 1) by (f_equal; lia).
  rewrite range_unit_step. erewrite bind_inr by reflexivity.
  set (t := Nat.min (length answer) (length all_contents - length response)).
  replace (Z.to_nat batch_size) with (t + S (Z.to_nat batch_size - t - 1))%nat
    by (unfold Py.len in *; lia).
  rewrite seq_app, fmap_app. cbn [seq fmap list_fmap].
  subst i.
  destruct (decide (length response ≤ length all_contents)%nat) as [Hin|Hout].
  - rewrite <- (take_drop t answer) at 1.
    eapply for_raise.
    + replace t with (length (take t answer)) at 1
        by (rewrite length_take; lia).
      apply overwrite_loop_tail. rewrite length_take. lia.
    + apply overwrite_content_out_of_range.
      rewrite !len_app. unfold Py.len, overwritten.
      rewrite length_zip_with, length_take, length_take, length_drop,
        length_drop.
      lia.
  - replace t with 0%nat by lia. simpl.
    erewrite bind_inl; [done|].
    apply overwrite_content_out_of_range. unfold Py.len. lia.
Qed.

Lemma short_answer_raises_witness :
  batch_step script_generator (module_globals "__main__") scenario_contents 2
    [] 0 (script_world scenario_store [inr []])
  = (inl Py.index_error,
     sent (script_world scenario_store [inr []]) []
       [batch_prompt DataFormatter_new scenario_contents 2 0]).
Proof.
  refine (short_answer_raises script_generator (module_globals "__main__")
            DataFormatter_new scenario_contents 2 [] 0
            (script_world scenario_store [inr []]) [] [] _ _ _ _).
  - reflexivity.
  - reflexivity.
  - reflexivity.
  - vm_compute. reflexivity.
Defined.

(** When the service answers a full batch with at least as many objects as
    the batch has records, the round overwrites the first [batch_size] of
    them and keeps the others as they came: nothing is cut off, so the
    response ends up longer than the records processed. *)
Theorem long_answer_kept {C : Type} (self : @DatasetGenerator C)
    (g : Globals) (f : Formatter) (all_contents : list Py.value)
    (batch_size : Z) (response : list Py.dict) (i : Z) (w : @World C)
    (answer : list Py.dict) (c' : C) :
  g_data_formatter g = Some f →
  0 < batch_size →
  Py.len response = i →
  i + batch_size ≤ Py.len all_contents →
  send_prompt (api_communicator self) (client w)
    (batch_prompt f all_contents batch_size i) = (inr answer, c') →
  batch_size ≤ Py.len answer →
  batch_step self g all_contents batch_size response i w
  = (inr (response
            ++ overwritten (take (Z.to_nat batch_size) answer)
                 (Py.slice all_contents i (i + batch_size))
            ++ drop (Z.to_nat batch_size) answer),
     sent w c' [batch_prompt f all_contents batch_size i]).
Proof.
  intros Hg Hb Hi Hfull Hsend Hlong. unfold batch_step, load_data_formatter.
  rewrite Hg. erewrite bind_inr by reflexivity.
  erewrite bind_inr by (by apply call_send_prompt_eq).
  pose proof (len_nonneg response).
  replace (Py.range i (i + batch_size) 1)
    with (Py.range i (i + Z.of_nat (Z.to_nat batch_size)) 1) by (f_equal; lia).
  rewrite range_unit_step. erewrite bind_inr by reflexivity.
  rewrite <- (take_drop (Z.to_nat batch_size) answer) at 1. subst i.
  assert (length (take (Z.to_nat batch_size) answer) = Z.to_nat batch_size)
    as Htake by (rewrite length_take; unfold Py.len in *; lia).
  rewrite <- Htake at 1.
  rewrite overwrite_loop_tail by (unfold Py.len in *; lia).
  apply (f_equal2 pair); [|done]. do 3 f_equal.
  rewrite slice_take_drop by lia. rewrite Htake.
  replace (Z.to_nat (Py.len response + batch_size - Py.len response))
    with (Z.to_nat batch_size) by lia.
  by replace (Z.to_nat (Py.len response)) with (length response)
    by (unfold Py.len; lia).
Qed.

Lemma long_answer_kept_witness :
  batch_step script_generator (module_globals "__main__") scenario_contents 1
    [] 0 (script_world scenario_store scenario_answers)
  = (inr [ [("instruction", Py.VStr "i1"); ("content", Py.VStr "A")];
           [("instruction", Py.VStr "i2"); ("content", Py.VStr "1")] ],
     sent (script_world scenario_store scenario_answers)
       [ inr [ [("instruction", Py.VStr "i3"); ("content", Py.VStr "2")] ] ]
       [batch_prompt DataFormatter_new scenario_contents 1 0]).
Proof.
  refine (long_answer_kept script_generator (module_globals "__main__")
            DataFormatter_new scenario_contents 1 [] 0
            (script_world scenario_store scenario_answers)
            [ [("instruction", Py.VStr "i1"); ("content", Py.VStr "0")];
              [("instruction", Py.VStr "i2"); ("content", Py.VStr "1")] ]
            [ inr [ [("instruction", Py.VStr "i3"); ("content", Py.VStr "2")] ] ]
            _ _ _ _ _ _).
  - reflexivity.
  - lia.
  - reflexivity.
  - vm_compute. discriminate.
  - reflexivity.
  - vm_compute. discriminate.
Defined.

Section GenerateMore.

Context {C : Type} (json_dumps : list Py.dict → string).
Context (self : @DatasetGenerator C) (g : Globals) (f : Formatter).
Context (collection_name : string).
Implicit Types (w : @World C) (l : list Py.value).

(** With full batches and one object per record, the run reaches
    [push_to_comet] with every object overwritten at its position. *)
Lemma generate_full_batches batch_size w l answers c' :
  1 ≤ batch_size →
  Py.len l mod batch_size = 0 →
  g_data_formatter g = Some f →
  (fetch_all_cleaned_content collection_name w).1 = inr l →
  replay (api_communicator self) (client w) (batch_prompts f l batch_size)
  = Some (answers, c') →
  Forall2 (λ answer i, Py.len answer = Py.len (Py.slice l i (i + batch_size)))
    answers (batch_starts (Py.len l) batch_size) →
  generate_training_data json_dumps self g collection_name batch_size w
  = push_to_comet json_dumps (overwritten (concat answers) l) collection_name
      (sent (scrolled w collection_name 10000) c'
         (batch_prompts f l batch_size)).
Proof.
  intros Hb Hmod Hg Hfetch Hreplay Hlens.
  apply (generate_pushes _ _ _ _ _ _ l); [done|].
  rewrite (build_response_exact self g f l batch_size Hg ltac:(lia)
             _ answers c'); [|done..].
  by rewrite Hmod.
Qed.

Lemma replay_length (api : @GptCommunicator C) c ps answers c' :
  replay api c ps = Some (answers, c') → length answers = length ps.
Proof.
  revert c answers. induction ps as [|p ps IH]; intros c answers Hreplay.
  - by injection Hreplay as <- _.
  - apply replay_cons in Hreplay as (answer & c1 & rs & _ & Hrest & ->).
    simpl. f_equal. by eapply IH.
Qed.

(** With batches of one there is one prompt per record, made of that record
    alone and numbered by its position. *)
Lemma batch_prompts_unit l :
  batch_prompts f l 1 = imap (λ k v, format_prompt f [v] (Z.of_nat k)) l.
Proof.
  unfold batch_prompts, batch_starts.
  replace (Py.len l + 1 - 1) with (Py.len l) by lia.
  rewrite Z.div_1_r. unfold Py.len at 1. rewrite Nat2Z.id.
  apply list_eq. intros k.
  rewrite !list_lookup_fmap, list_lookup_imap.
  destruct (l !! k) as [v|] eqn:Hk; simpl.
  - apply lookup_lt_Some in Hk as Hlt.
    rewrite (lookup_seq_lt 0 (length l) k Hlt). simpl.
    unfold batch_prompt. rewrite Z.mul_1_r.
    rewrite slice_take_drop by lia.
    replace (Z.to_nat (Z.of_nat k)) with k by lia.
    replace (Z.to_nat (Z.of_nat k + 1 - Z.of_nat k)) with 1%nat by lia.
    rewrite (drop_S l v k Hk). done.
  - apply lookup_ge_None in Hk.
    by rewrite (lookup_seq_ge 0 (length l) k Hk).
Qed.

Lemma length_batch_starts_unit l :
  length (batch_starts (Py.len l) 1) = length l.
Proof.
  unfold batch_starts. rewrite length_fmap, length_seq.
  replace (Py.len l + 1 - 1) with (Py.len l) by lia.
  rewrite Z.div_1_r. unfold Py.len. lia.
Qed.

End GenerateMore.

(** When the number of fetched records is a multiple of the batch size and
    the service answers every prompt with one object per record, the run
    returns normally, has sent the prompts of all batches in order, and,
    when nothing fails up to the writing of the file, the file holds the
    serialisation of the answers in order, each object with its [content]
    replaced by the record at its position: one object per record. *)
Theorem full_batches_written {C : Type} (json_dumps : list Py.dict → string)
    (self : @DatasetGenerator C) (g : Globals) (f : Formatter)
    (collection_name : string) (batch_size : Z) (w : @World C)
    (all_contents : list Py.value) (answers : list (list Py.dict)) (c' : C) :
  1 ≤ batch_size →
  Py.len all_contents mod batch_size = 0 →
  g_data_formatter g = Some f →
  (fetch_all_cleaned_content collection_name w).1 = inr all_contents →
  replay (api_communicator self) (client w)
    (batch_prompts f all_contents batch_size) = Some (answers, c') →
  Forall2 (λ answer i,
             Py.len answer
             = Py.len (Py.slice all_contents i (i + batch_size)))
    answers (batch_starts (Py.len all_contents) batch_size) →
  file_written (faults w) →
  let r := generate_training_data json_dumps self g collection_name batch_size w in
  r.1 = inr ()
  ∧ prompts r.2 = prompts w ++ batch_prompts f all_contents batch_size
  ∧ client r.2 = c'
  ∧ files r.2 !! (collection_name +:+ ".json")
    = Some (json_dumps (overwritten (concat answers) all_contents))
  ∧ length (overwritten (concat answers) all_contents) = length all_contents.
Proof.
  intros Hb Hmod Hg Hfetch Hreplay Hlens Hfaults. cbn zeta.
  rewrite (generate_full_batches json_dumps self g f collection_name
             batch_size w all_contents answers c'); [|done..].
  split; [apply push_to_comet_returns|].
  destruct (push_to_comet_frame json_dumps
              (overwritten (concat answers) all_contents) collection_name
              (sent (scrolled w collection_name 10000) c'
                 (batch_prompts f all_contents batch_size)))
    as (_ & _ & -> & -> & _).
  split; [done|]. split; [done|].
  split; [by apply push_to_comet_file|].
  unfold overwritten. rewrite length_zip_with.
  assert (length (concat answers) = length all_contents) as ->; [|lia].
  rewrite <- (concat_batches all_contents batch_size ltac:(lia)) at 1.
  revert Hlens. generalize (batch_starts (Py.len all_contents) batch_size).
  clear. intros starts Hlens.
  induction Hlens as [|a i rs starts Ha _ IH]; [done|].
  simpl. rewrite !length_app, IH.
  apply (f_equal2 Nat.add); [unfold Py.len in Ha; lia|done].
Qed.

Lemma full_batches_written_witness :
  let w := script_world scenario_store
             [ inr [ [("instruction", Py.VStr "i1"); ("content", Py.VStr "0")];
                     [("instruction", Py.VStr "i2"); ("content", Py.VStr "1")];
                     [("instruction", Py.VStr "i3"); ("content", Py.VStr "2")] ] ] in
  let r := generate_training_data (λ data, pretty (length data)) script_generator
             (module_globals "__main__") "cleaned_posts" 3 w in
  r.1 = inr ()
  ∧ prompts r.2 = [] ++ batch_prompts DataFormatter_new scenario_contents 3
  ∧ client r.2 = []
  ∧ files r.2 !! "cleaned_posts.json" = Some "3".
Proof.
  intros w.
  destruct (full_batches_written (λ data, pretty (length data)) script_generator
              (module_globals "__main__") DataFormatter_new "cleaned_posts" 3 w
              scenario_contents
              [ [ [("instruction", Py.VStr "i1"); ("content", Py.VStr "0")];
                  [("instruction", Py.VStr "i2"); ("content", Py.VStr "1")];
                  [("instruction", Py.VStr "i3"); ("content", Py.VStr "2")] ] ]
              [])
    as (Hreturns & Hprompts & Hclient & Hfile & _).
  - lia.
  - reflexivity.
  - reflexivity.
  - vm_compute. reflexivity.
  - vm_compute. reflexivity.
  - vm_compute. repeat constructor.
  - repeat split.
  - split; [exact Hreturns|]. split; [exact Hprompts|].
    split; [exact Hclient|exact Hfile].
Defined.

(** * The objects after the overwrite *)

Section DictFacts.

Implicit Types (d : Py.dict) (k : string) (v : Py.value).

Lemma dict_getitem_setitem_eq d k v :
  dict_getitem (Py.dict_setitem d k v) k = inr v.
Proof.
  induction d as [|[k' v'] d IH]; simpl.
  - by rewrite String.eqb_refl.
  - destruct (String.eqb k' k) eqn:Hk; simpl; by rewrite Hk.
Qed.

Lemma dict_getitem_setitem_ne d k k' v :
  k' ≠ k → dict_getitem (Py.dict_setitem d k v) k' = dict_getitem d k'.
Proof.
  intros Hne. induction d as [|[k0 v0] d IH]; simpl.
  - by rewrite (proj2 (String.eqb_neq k k')).
  - destruct (String.eqb k0 k) eqn:Hk; simpl; [|by rewrite IH].
    apply String.eqb_eq in Hk as ->.
    by rewrite (proj2 (String.eqb_neq k k')).
Qed.

(** Setting a key that is there changes no key and no position. *)
Lemma dict_setitem_keys_present d k v x :
  dict_getitem d k = inr x → (Py.dict_setitem d k v).*1 = d.*1.
Proof.
  induction d as [|[k0 v0] d IH]; [done|].
  cbn [Py.dict_setitem dict_getitem].
  destruct (String.eqb k0 k) eqn:Hk; [done|].
  intros Hx. rewrite !fmap_cons. f_equal. by apply IH.
Qed.

(** Setting a key that is not there appends it. *)
Lemma dict_setitem_keys_absent d k v :
  dict_getitem d k = inl (Py.KeyError k) →
  (Py.dict_setitem d k v).*1 = d.*1 ++ [k].
Proof.
  induction d as [|[k0 v0] d IH]; [done|].
  cbn [Py.dict_setitem dict_getitem].
  destruct (String.eqb k0 k) eqn:Hk; [done|].
  intros Hx. rewrite !fmap_cons. simpl. f_equal. by apply IH.
Qed.

End DictFacts.

(** A round of the batch loop on a full batch that the service answers
    with one object per record: the objects collected before the round are
    left as they were, and the object that the service gave at offset [p] of
    its answer, now at position [i + p] of the response, has the record at
    position [i + p] of the collection as its [content]; every other field
    is as the service gave it, and the fields keep their order, [content]
    going last when the service left it out. *)
Theorem overwritten_fields {C : Type} (self : @DatasetGenerator C)
    (g : Globals) (f : Formatter) (all_contents : list Py.value)
    (batch_size : Z) (response : list Py.dict) (i : Z) (w : @World C)
    (answer : list Py.dict) (c' : C) (p : nat) (d : Py.dict) :
  g_data_formatter g = Some f →
  0 < batch_size →
  Py.len response = i →
  i + batch_size ≤ Py.len all_contents →
  send_prompt (api_communicator self) (client w)
    (batch_prompt f all_contents batch_size i) = (inr answer, c') →
  Py.len answer = batch_size →
  answer !! p = Some d →
  ∃ (response' : list Py.dict) (d' : Py.dict) (v : Py.value),
    (batch_step self g all_contents batch_size response i w).1 = inr response'
    ∧ length response' = (length response + length answer)%nat
    ∧ take (length response) response' = response
    ∧ all_contents !! (length response + p)%nat = Some v
    ∧ response' !! (length response + p)%nat = Some d'
    ∧ dict_getitem d' "content" = inr v
    ∧ (∀ k, k ≠ "content" → dict_getitem d' k = dict_getitem d k)
    ∧ (∀ x, dict_getitem d "content" = inr x → d'.*1 = d.*1)
    ∧ (dict_getitem d "content" = inl (Py.KeyError "content") →
       d'.*1 = d.*1 ++ ["content"]).
Proof.
  intros Hg Hb Hi Hfull Hsend Hlen Hd.
  pose proof (lookup_lt_Some _ _ _ Hd) as Hp.
  pose proof (len_nonneg response) as Hresp.
  assert (length response + p < length all_contents)%nat as Hin
    by (unfold Py.len in *; lia).
  destruct (lookup_lt_is_Some_2 all_contents _ Hin) as [v Hv].
  assert (Py.slice all_contents i (i + batch_size) !! p = Some v) as Hslice.
  { rewrite slice_take_drop by lia.
    rewrite lookup_take_lt by (unfold Py.len in *; lia).
    rewrite lookup_drop. rewrite <- Hv. f_equal. unfold Py.len in *. lia. }
  exists (response ++ overwritten answer (Py.slice all_contents i (i + batch_size))),
    (Py.dict_setitem d "content" v), v.
  rewrite (batch_step_full self g f all_contents batch_size Hg Hb
             response i w answer c' Hi Hfull Hsend Hlen).
  split; [done|]. split.
  { rewrite length_app. f_equal. unfold overwritten.
    rewrite length_zip_with.
    pose proof (length_slice all_contents i (i + batch_size) ltac:(lia) ltac:(lia)).
    unfold Py.len in *. lia. }
  split; [by rewrite take_app_length|].
  split; [done|]. split.
  { rewrite lookup_app_r by lia.
    replace (length response + p - length response)%nat with p by lia.
    unfold overwritten. rewrite lookup_zip_with, Hd. simpl. by rewrite Hslice. }
  split; [apply dict_getitem_setitem_eq|].
  split; [intros k Hk; by apply dict_getitem_setitem_ne|].
  split; [intros x; apply dict_setitem_keys_present|].
  apply dict_setitem_keys_absent.
Qed.

Lemma overwritten_fields_witness :
  ∃ (response' : list Py.dict) (d' : Py.dict),
    (batch_step script_generator (module_globals "__main__") scenario_contents 1
       [ [("instruction", Py.VStr "i1"); ("content", Py.VStr "A")] ] 1
       (script_world scenario_store
          [ inr [ [("instruction", Py.VStr "i2"); ("content", Py.VStr "0");
                   ("note", Py.VNone)] ] ])).1
    = inr response'
    ∧ take 1 response' = [ [("instruction", Py.VStr "i1"); ("content", Py.VStr "A")] ]
    ∧ response' !! 1%nat = Some d'
    ∧ dict_getitem d' "content" = inr (Py.VStr "B")
    ∧ dict_getitem d' "instruction" = inr (Py.VStr "i2")
    ∧ d'.*1 = ["instruction"; "content"; "note"].
Proof.
  destruct (overwritten_fields script_generator (module_globals "__main__")
              DataFormatter_new scenario_contents 1
              [ [("instruction", Py.VStr "i1"); ("content", Py.VStr "A")] ] 1
              (script_world scenario_store
                 [ inr [ [("instruction", Py.VStr "i2"); ("content", Py.VStr "0");
                          ("note", Py.VNone)] ] ])
              [ [("instruction", Py.VStr "i2"); ("content", Py.VStr "0");
                 ("note", Py.VNone)] ]
              [] 0
              [("instruction", Py.VStr "i2"); ("content", Py.VStr "0");
               ("note", Py.VNone)]
              eq_refl ltac:(lia) eq_refl ltac:(vm_compute; discriminate)
              eq_refl eq_refl eq_refl)
    as (response' & d' & v & Hstep & _ & Hbefore & Hv & Hlookup & Hcontent
        & Hothers & Hkeys & _).
  exists response', d'. split; [exact Hstep|]. split; [exact Hbefore|].
  split; [exact Hlookup|]. split.
  - replace v with (Py.VStr "B") in Hcontent; [exact Hcontent|].
    vm_compute in Hv. congruence.
  - split.
    + exact (Hothers "instruction" ltac:(discriminate)).
    + exact (Hkeys (Py.VStr "0") eq_refl).
Defined.

(** * Batch sizes *)

(** A batch size of zero makes the run raise [ValueError] at the loop
    header, after the fetch.  A negative batch size makes the loop header an
    empty range: the run sends no prompt and goes on to [push_to_comet] with
    an empty dataset, however many records were fetched. *)
Theorem nonpositive_batch_size {C : Type} (json_dumps : list Py.dict → string)
    (self : @DatasetGenerator C) (g : Globals) (collection_name : string)
    (batch_size : Z) (w : @World C) (all_contents : list Py.value) :
  (fetch_all_cleaned_content collection_name w).1 = inr all_contents →
  (batch_size = 0 →
   generate_training_data json_dumps self g collection_name batch_size w
   = (inl (Py.ValueError "range() arg 3 must not be zero"),
      scrolled w collection_name 10000))
  ∧ (batch_size < 0 →
     generate_training_data json_dumps self g collection_name batch_size w
     = push_to_comet json_dumps [] collection_name
         (scrolled w collection_name 10000)).
Proof.
  intros Hfetch. split.
  - intros ->. by apply (generate_raises _ _ _ _ _ _ all_contents).
  - intros Hneg. apply (generate_pushes _ _ _ _ _ _ all_contents); [done|].
    unfold build_response, Py.range.
    destruct (Z.eqb_spec batch_size 0); [lia|].
    erewrite bind_inr by reflexivity.
    pose proof (len_nonneg all_contents).
    destruct (Z.to_nat (Z.abs (Py.len all_contents - 0))); [done|].
    simpl. destruct (Z.ltb_spec 0 batch_size); [lia|].
    by destruct (Z.ltb_spec (Py.len all_contents) 0); [lia|].
Qed.

Lemma nonpositive_batch_size_witness :
  generate_training_data (λ _, "[]") script_generator (module_globals "__main__")
    "cleaned_posts" 0 (script_world scenario_store scenario_answers)
  = (inl (Py.ValueError "range() arg 3 must not be zero"),
     scrolled (script_world scenario_store scenario_answers)
       "cleaned_posts" 10000)
  ∧ generate_training_data (λ _, "[]") script_generator
      (module_globals "__main__") "cleaned_posts" (-2)
      (script_world scenario_store scenario_answers)
    = push_to_comet (λ _, "[]") [] "cleaned_posts"
        (scrolled (script_world scenario_store scenario_answers)
           "cleaned_posts" 10000).
Proof.
  split.
  - refine (proj1 (nonpositive_batch_size (λ _, "[]") script_generator
                     (module_globals "__main__") "cleaned_posts" 0
                     (script_world scenario_store scenario_answers)
                     scenario_contents _) eq_refl).
    vm_compute. reflexivity.
  - refine (proj2 (nonpositive_batch_size (λ _, "[]") script_generator
                     (module_globals "__main__") "cleaned_posts" (-2)
                     (script_world scenario_store scenario_answers)
                     scenario_contents _) _).
    + vm_compute. reflexivity.
    + lia.
Defined.

(** With the batch size of one that the script uses, no batch is short: when
    the service answers each prompt with one object, the run sends one
    prompt per record, made of that record alone and numbered by its
    position, returns normally and, when nothing fails up to the writing of
    the file, writes one object per record. *)
Theorem unit_batches_written {C : Type} (json_dumps : list Py.dict → string)
    (self : @DatasetGenerator C) (g : Globals) (f : Formatter)
    (collection_name : string) (w : @World C)
    (all_contents : list Py.value) (answers : list (list Py.dict)) (c' : C) :
  g_data_formatter g = Some f →
  (fetch_all_cleaned_content collection_name w).1 = inr all_contents →
  replay (api_communicator self) (client w)
    (imap (λ k v, format_prompt f [v] (Z.of_nat k)) all_contents)
  = Some (answers, c') →
  Forall (λ answer, length answer = 1%nat) answers →
  file_written (faults w) →
  let r := generate_training_data json_dumps self g collection_name 1 w in
  r.1 = inr ()
  ∧ prompts r.2
    = prompts w ++ imap (λ k v, format_prompt f [v] (Z.of_nat k)) all_contents
  ∧ files r.2 !! (collection_name +:+ ".json")
    = Some (json_dumps (overwritten (concat answers) all_contents)).
Proof.
  intros Hg Hfetch Hreplay Hunit Hfaults. cbn zeta.
  rewrite <- (batch_prompts_unit f all_contents) in *.
  assert (Forall2 (λ answer i,
                     Py.len answer
                     = Py.len (Py.slice all_contents i (i + 1)))
            answers (batch_starts (Py.len all_contents) 1)) as Hlens.
  { apply Forall2_same_length_lookup_2.
    - rewrite (replay_length _ _ _ _ _ Hreplay).
      unfold batch_prompts. by rewrite length_fmap.
    - intros k answer i Hanswer Hi.
      pose proof (lookup_lt_Some _ _ _ Hi) as Hlt.
      rewrite length_batch_starts_unit in Hlt.
      apply lookup_batch_starts in Hi as ->.
      pose proof (Forall_lookup_1 _ _ _ _ Hunit Hanswer) as Hone.
      simpl in Hone. rewrite length_slice by lia. unfold Py.len. lia. }
  rewrite (generate_full_batches json_dumps self g f collection_name 1 w
             all_contents answers c'); [|lia|apply Z.mod_1_r|done..].
  split; [apply push_to_comet_returns|].
  destruct (push_to_comet_frame json_dumps
              (overwritten (concat answers) all_contents) collection_name
              (sent (scrolled w collection_name 10000) c'
                 (batch_prompts f all_contents 1)))
    as (_ & _ & _ & -> & _).
  split; [done|]. by apply push_to_comet_file.
Qed.

Lemma unit_batches_written_witness :
  let r := generate_training_data (λ data, pretty (length data)) script_generator
             (module_globals "__main__") "cleaned_posts" 1
             (script_world scenario_store scenario_unit_answers) in
  r.1 = inr ()
  ∧ prompts r.2
    = [] ++ imap (λ k v, DataFormatter.format_prompt [v] (Z.of_nat k))
              scenario_contents
  ∧ files r.2 !! "cleaned_posts.json" = Some "3".
Proof.
  refine (unit_batches_written (λ data, pretty (length data)) script_generator
            (module_globals "__main__") DataFormatter_new "cleaned_posts"
            (script_world scenario_store scenario_unit_answers)
            scenario_contents
            [ [ [("instruction", Py.VStr "i1"); ("content", Py.VStr "0")] ];
              [ [("instruction", Py.VStr "i2"); ("content", Py.VStr "1")] ];
              [ [("instruction", Py.VStr "i3"); ("content", Py.VStr "2")] ] ]
            [] _ _ _ _ _).
  - reflexivity.
  - vm_compute. reflexivity.
  - vm_compute. reflexivity.
  - repeat constructor.
  - repeat split.
Defined.

(** * Further properties of the push *)

Section PushMore.

Context {C : Type} (json_dumps : list Py.dict → string).
Implicit Types (w : @World C) (data : list Py.dict).

Ltac run_push w :=
  destruct w as [st sc cl pr fs [ef opf df af adf lf enf] ar en lg];
  unfold push_to_comet, try_except, bind, Experiment_new, open_and_dump,
    Artifact_new, Artifact_add, log_artifact, experiment_end, may_fail,
    logging, ret, bind;
  cbn [faults experiment_fault open_fault dump_fault artifact_fault add_fault
       log_artifact_fault end_fault logs files store scrolls client prompts
       artifacts ended fst snd].

Lemma push_to_comet_no_fault data collection_name w :
  first_fault (faults w) = None →
  push_to_comet json_dumps data collection_name w
  = (inr (),
     mkWorld (store w) (scrolls w) (client w) (prompts w)
       (<[collection_name +:+ ".json" := json_dumps data]> (files w))
       (faults w)
       (artifacts w ++ [(collection_name, [collection_name +:+ ".json"])])
       true
       (logs w
          ++ [ (INFO, "Starting to push data to Comet: " +:+ collection_name);
               (INFO, "Writing data to file: " +:+ collection_name +:+ ".json");
               (INFO, "Data written to file successfully");
               (INFO, "Artifact created and file added: "
                        +:+ collection_name +:+ ".json");
               (INFO, "Data pushed to Comet successfully and experiment ended") ])).
Proof.
  run_push w. unfold first_fault.
  cbn [experiment_fault open_fault dump_fault artifact_fault add_fault
       log_artifact_fault end_fault].
  intros Hnone.
  destruct ef; [done|]. destruct opf; [done|]. destruct df as [[n e]|]; [done|].
  destruct af; [done|]. destruct adf; [done|]. destruct lf; [done|].
  destruct enf; [done|]. simpl. by rewrite <- !app_assoc.
Qed.

Lemma push_to_comet_fault_effects data collection_name w e :
  first_fault (faults w) = Some e →
  let w' := (push_to_comet json_dumps data collection_name w).2 in
  ended w' = ended w
  ∧ (experiment_fault (faults w) ≠ None ∨ open_fault (faults w) ≠ None
     ∨ dump_fault (faults w) ≠ None ∨ artifact_fault (faults w) ≠ None
     ∨ add_fault (faults w) ≠ None ∨ log_artifact_fault (faults w) ≠ None →
     artifacts w' = artifacts w)
  ∧ (experiment_fault (faults w) ≠ None ∨ open_fault (faults w) ≠ None →
     files w' = files w).
Proof.
  run_push w. unfold first_fault.
  cbn [experiment_fault open_fault dump_fault artifact_fault add_fault
       log_artifact_fault end_fault].
  intros He.
  destruct ef; [done|]. destruct opf; [by intuition|].
  destruct df as [[n e']|]; [by intuition|].
  destruct af; [by intuition|]. destruct adf; [by intuition|].
  destruct lf; [by intuition|].
  destruct enf; [|done]. simpl. split; [done|]. by intuition.
Qed.

End PushMore.

(** When none of its external operations fails, [push_to_comet] writes the
    serialised dataset to [<collection_name>.json], logs one artifact named
    after the collection that holds this one file, ends the experiment, and
    logs five messages at level [INFO] and none at level [ERROR]; it touches
    nothing else. *)
Theorem push_to_comet_success {C : Type} (json_dumps : list Py.dict → string)
    (data : list Py.dict) (collection_name : string) (w : @World C) :
  first_fault (faults w) = None →
  let r := push_to_comet json_dumps data collection_name w in
  r.1 = inr ()
  ∧ files r.2 = <[collection_name +:+ ".json" := json_dumps data]> (files w)
  ∧ artifacts r.2
    = artifacts w ++ [(collection_name, [collection_name +:+ ".json"])]
  ∧ ended r.2 = true
  ∧ (∃ infos, logs r.2 = logs w ++ infos
              ∧ length infos = 5%nat
              ∧ Forall (λ entry, entry.1 = INFO) infos)
  ∧ store r.2 = store w ∧ client r.2 = client w ∧ prompts r.2 = prompts w.
Proof.
  intros Hnone. cbn zeta. rewrite push_to_comet_no_fault by done. simpl.
  split; [done|]. split; [done|]. split; [done|]. split; [done|].
  split; [|done]. eexists. split; [done|]. split; [done|].
  repeat constructor.
Qed.

Lemma push_to_comet_success_witness :
  let r := push_to_comet (λ _, "[]") [] "cleaned_posts"
             (mkWorld (paged ∅) [] () [] ∅ no_faults [] false []) in
  r.1 = inr ()
  ∧ files r.2 = {[ "cleaned_posts.json" := "[]" ]}
  ∧ artifacts r.2 = [("cleaned_posts", ["cleaned_posts.json"])]
  ∧ ended r.2 = true.
Proof.
  destruct (push_to_comet_success (λ _, "[]") [] "cleaned_posts"
              (mkWorld (paged ∅) [] () [] ∅ no_faults [] false []) eq_refl)
    as (Hreturns & Hfiles & Hartifacts & Hended & _).
  split; [exact Hreturns|]. split; [exact Hfiles|].
  split; [exact Hartifacts|exact Hended].
Defined.

(** When an operation of [push_to_comet] fails, the experiment is not ended
    by the call.  When the failure comes before the end of the upload, no
    artifact is logged; and when creating the experiment or opening the
    file fails, the files are left as they were. *)
Theorem push_to_comet_failure {C : Type} (json_dumps : list Py.dict → string)
    (data : list Py.dict) (collection_name : string) (w : @World C)
    (e : Py.exn) :
  first_fault (faults w) = Some e →
  let r := push_to_comet json_dumps data collection_name w in
  ended r.2 = ended w
  ∧ (experiment_fault (faults w) ≠ None ∨ open_fault (faults w) ≠ None
     ∨ dump_fault (faults w) ≠ None ∨ artifact_fault (faults w) ≠ None
     ∨ add_fault (faults w) ≠ None ∨ log_artifact_fault (faults w) ≠ None →
     artifacts r.2 = artifacts w)
  ∧ (experiment_fault (faults w) ≠ None ∨ open_fault (faults w) ≠ None →
     files r.2 = files w).
Proof. apply push_to_comet_fault_effects. Qed.

Lemma push_to_comet_failure_witness :
  let r := push_to_comet (λ _, "[]") [] "cleaned_posts"
             (mkWorld (paged ∅) [] () [] ∅ upload_fails [] false []) in
  ended r.2 = false ∧ artifacts r.2 = [].
Proof.
  destruct (push_to_comet_failure (λ _, "[]") [] "cleaned_posts"
              (mkWorld (paged ∅) [] () [] ∅ upload_fails [] false [])
              (Py.External "ConnectionError" "upload failed") eq_refl)
    as (Hended & Hartifacts & _).
  split; [exact Hended|].
  apply Hartifacts. do 5 right. discriminate.
Defined.

(** * The script *)

Section ScriptFacts.

Context {C : Type} (json_dumps : list Py.dict → string).
Implicit Types (w : @World C).

Lemma generate_fetch_raises (self : @DatasetGenerator C) g collection_name
    batch_size w e :
  (fetch_all_cleaned_content collection_name w).1 = inl e →
  generate_training_data json_dumps self g collection_name batch_size w
  = (inl e, scrolled w collection_name 10000).
Proof.
  intros Hfetch. unfold generate_training_data.
  apply bind_inl. rewrite <- fetch_world, <- Hfetch.
  by destruct (fetch_all_cleaned_content collection_name w).
Qed.

(** A run makes exactly one [scroll] call, whatever happens next. *)
Lemma generate_scrolls (self : @DatasetGenerator C) g collection_name
    batch_size w :
  scrolls (generate_training_data json_dumps self g collection_name
             batch_size w).2
  = scrolls w ++ [(collection_name, 10000)].
Proof.
  destruct (fetch_all_cleaned_content collection_name w).1 as [e|l] eqn:Hfetch.
  - by rewrite (generate_fetch_raises _ _ _ _ _ e).
  - destruct (build_response self g l batch_size
                (scrolled w collection_name 10000)) as [[e|data] w'] eqn:Hbuild.
    + rewrite (generate_raises _ _ _ _ _ _ _ _ _ Hfetch Hbuild). simpl.
      pose proof (preserves_build_response scrolls self g l batch_size
                    ltac:(done) (scrolled w collection_name 10000)) as Hs.
      by rewrite Hbuild in Hs.
    + rewrite (generate_pushes _ _ _ _ _ _ _ _ _ Hfetch Hbuild).
      destruct (push_to_comet_frame json_dumps data collection_name w')
        as (_ & -> & _).
      pose proof (preserves_build_response scrolls self g l batch_size
                    ltac:(done) (scrolled w collection_name 10000)) as Hs.
      by rewrite Hbuild in Hs.
Qed.

End ScriptFacts.

(** The script processes the collections in order and does not isolate
    them: when the run for [cleaned_articles] raises, the script ends with
    that exception and [cleaned_posts] is not even fetched; when it returns,
    the run for [cleaned_posts] follows in the world it left. *)
Theorem main_collections_in_order {C : Type}
    (json_dumps : list Py.dict → string) (api : @GptCommunicator C)
    (w : @World C) :
  let generator := mkDatasetGenerator () api DataFormatter_new in
  let r1 := generate_training_data json_dumps generator
              (module_globals "__main__") "cleaned_articles" 1 w in
  let r := main json_dumps api w in
  (∀ e, r1.1 = inl e →
     r = (inl e, r1.2)
     ∧ scrolls r.2 = scrolls w ++ [("cleaned_articles", 10000)])
  ∧ (r1.1 = inr () →
     r = generate_training_data json_dumps generator
           (module_globals "__main__") "cleaned_posts" 1 r1.2
     ∧ scrolls r.2
       = scrolls w ++ [("cleaned_articles", 10000); ("cleaned_posts", 10000)]).
Proof.
  cbn zeta.
  pose proof (generate_scrolls json_dumps (mkDatasetGenerator () api DataFormatter_new)
                (module_globals "__main__") "cleaned_articles" 1 w) as Hs1.
  unfold main, collection_names. cbn [for_]. unfold bind.
  change (mkGlobals (Some DataFormatter_new)) with (module_globals "__main__").
  destruct (generate_training_data json_dumps _ _ "cleaned_articles" 1 w)
    as [[e1|[]] w1] eqn:Hr1; simpl in *.
  - split; [|done]. intros e [= <-]. by rewrite Hs1.
  - split; [done|]. intros _.
    pose proof (generate_scrolls json_dumps
                  (mkDatasetGenerator () api DataFormatter_new)
                  (module_globals "__main__") "cleaned_posts" 1 w1) as Hs2.
    destruct (generate_training_data json_dumps _ _ "cleaned_posts" 1 w1)
      as [[e2|[]] w2]; simpl in *; rewrite Hs2, Hs1, <- app_assoc; done.
Qed.

Lemma main_collections_in_order_witness :
  (let r := main (λ _, "") scripted
              (script_world scenario_store scenario_unit_answers) in
   r.1 = inl (Py.External "UnexpectedResponse" "collection not found")
   ∧ scrolls r.2 = [] ++ [("cleaned_articles", 10000)])
  ∧ (let r := main (λ _, "") scripted
                (script_world (<["cleaned_articles" := []]> scenario_store)
                   scenario_unit_answers) in
     scrolls r.2
     = [] ++ [("cleaned_articles", 10000); ("cleaned_posts", 10000)]).
Proof.
  split.
  - destruct (proj1 (main_collections_in_order (λ _, "") scripted
                       (script_world scenario_store scenario_unit_answers))
                (Py.External "UnexpectedResponse" "collection not found"))
      as [Hresult Hscrolls].
    + vm_compute. reflexivity.
    + split; [|exact Hscrolls]. cbn zeta in Hresult.
      exact (f_equal fst Hresult).
  - destruct (proj2 (main_collections_in_order (λ _, "") scripted
                       (script_world (<["cleaned_articles" := []]> scenario_store)
                          scenario_unit_answers)))
      as [_ Hscrolls].
    + vm_compute. reflexivity.
    + exact Hscrolls.
Defined.

(** * The prompts for fine-tuning *)

Section EncodingFacts.

Implicit Types (d : Encoding.t) (k : string) (v : list Z).

Lemma encoding_getitem_setitem_eq d k v :
  Encoding.getitem (Encoding.setitem d k v) k = inr v.
Proof.
  induction d as [|[k' v'] d IH]; simpl.
  - by rewrite String.eqb_refl.
  - destruct (String.eqb k' k) eqn:Hk; simpl; by rewrite Hk.
Qed.

Lemma encoding_getitem_setitem_ne d k k' v :
  k' ≠ k →
  Encoding.getitem (Encoding.setitem d k v) k' = Encoding.getitem d k'.
Proof.
  intros Hne. induction d as [|[k0 v0] d IH]; simpl.
  - by rewrite (proj2 (String.eqb_neq k k')).
  - destruct (String.eqb k0 k) eqn:Hk; simpl; [|by rewrite IH].
    apply String.eqb_eq in Hk as ->.
    by rewrite (proj2 (String.eqb_neq k k')).
Qed.

End EncodingFacts.

(** [tokenize] hands back what the tokenizer returned with one field added
    or replaced: [labels], equal to [input_ids]; the other fields,
    [input_ids] among them, are as the tokenizer gave them.  An exception of
    the tokenizer comes out as it is.  The two variants of the model
    tokenize alike. *)
Theorem tokenize_labels (tokenizer : Tokenizer) (prompt : string) :
  (∀ result input_ids,
     tokenizer prompt = inr result →
     Encoding.getitem result "input_ids" = inr input_ids →
     ∃ result',
       FinetuningModel.tokenize tokenizer prompt = inr result'
       ∧ Encoding.getitem result' "labels" = inr input_ids
       ∧ Encoding.getitem result' "input_ids" = inr input_ids
       ∧ ∀ k, k ≠ "labels" →
           Encoding.getitem result' k = Encoding.getitem result k)
  ∧ (∀ e, tokenizer prompt = inl e →
       FinetuningModel.tokenize tokenizer prompt = inl e)
  ∧ MainModel.tokenize tokenizer prompt
    = FinetuningModel.tokenize tokenizer prompt.
Proof.
  split; [|split; [|done]].
  - intros result input_ids Htok Hids.
    exists (Encoding.setitem result "labels" input_ids).
    unfold FinetuningModel.tokenize. rewrite Htok, Hids.
    split; [done|]. split; [apply encoding_getitem_setitem_eq|].
    split; [by rewrite encoding_getitem_setitem_ne|].
    intros k Hk. by apply encoding_getitem_setitem_ne.
  - intros e Htok. unfold FinetuningModel.tokenize. by rewrite Htok.
Qed.

Lemma tokenize_labels_witness :
  ∃ result',
    FinetuningModel.tokenize two_tokens "a prompt" = inr result'
    ∧ Encoding.getitem result' "labels" = inr [1; 2]
    ∧ Encoding.getitem result' "attention_mask" = inr [1; 1].
Proof.
  destruct (proj1 (tokenize_labels two_tokens "a prompt")
              [("input_ids", [1; 2]); ("attention_mask", [1; 1])] [1; 2]
              eq_refl eq_refl)
    as (result' & Htok & Hlabels & _ & Hothers).
  exists result'. split; [exact Htok|]. split; [exact Hlabels|].
  exact (Hothers "attention_mask" ltac:(discriminate)).
Defined.

(** [generate_prompt] of the fine-tuning model on an object shaped as the
    dataset generator shapes them: for an object that has an [instruction],
    once its [content] is set to a record, the prompt that is tokenized is
    the instruction between the instruction tags, a line feed and eight
    spaces, followed by that record, whatever [content] held before.
    Without an [instruction] it raises [KeyError]. *)
Theorem finetuning_accepts_examples (tokenizer : Tokenizer) (d : Py.dict)
    (record : Py.value) :
  (∀ instruction,
     dict_getitem d "instruction" = inr instruction →
     FinetuningModel.generate_prompt tokenizer
       (Py.dict_setitem d "content" record)
     = FinetuningModel.tokenize tokenizer
         ("<s>[INST]" +:+ Py.str instruction +:+ Py.nl
            +:+ "        [/INST] " +:+ Py.str record +:+ "</s>"))
  ∧ (dict_getitem d "instruction" = inl (Py.KeyError "instruction") →
     FinetuningModel.generate_prompt tokenizer
       (Py.dict_setitem d "content" record)
     = inl (Py.KeyError "instruction")).
Proof.
  split.
  - intros instruction Hins. unfold FinetuningModel.generate_prompt.
    rewrite dict_getitem_setitem_ne, Hins by done.
    by rewrite dict_getitem_setitem_eq.
  - intros Hins. unfold FinetuningModel.generate_prompt.
    by rewrite dict_getitem_setitem_ne, Hins.
Qed.

Lemma finetuning_accepts_examples_witness :
  FinetuningModel.generate_prompt two_tokens
    [("instruction", Py.VStr "i1"); ("content", Py.VStr "A")]
  = inr [("input_ids", [1; 2]); ("attention_mask", [1; 1]); ("labels", [1; 2])].
Proof.
  exact (proj1 (finetuning_accepts_examples two_tokens
                  [("instruction", Py.VStr "i1"); ("content", Py.VStr "0")]
                  (Py.VStr "A"))
           (Py.VStr "i1") eq_refl).
Defined.

(** The other variant of the model reads the field [post], which the
    dataset generator does not write: on an object that has an
    [instruction] and no [post], with its [content] set or not, its
    [generate_prompt] raises [KeyError] for [post], whatever the
    tokenizer. *)
Theorem main_model_rejects_examples (tokenizer : Tokenizer) (d : Py.dict)
    (instruction record : Py.value) :
  dict_getitem d "instruction" = inr instruction →
  dict_getitem d "post" = inl (Py.KeyError "post") →
  MainModel.generate_prompt tokenizer (Py.dict_setitem d "content" record)
  = inl (Py.KeyError "post")
  ∧ MainModel.generate_prompt tokenizer d = inl (Py.KeyError "post").
Proof.
  intros Hins Hpost. unfold MainModel.generate_prompt.
  rewrite !dict_getitem_setitem_ne, Hins, Hpost by done. done.
Qed.

Lemma main_model_rejects_examples_witness :
  MainModel.generate_prompt two_tokens
    [("instruction", Py.VStr "i1"); ("content", Py.VStr "A")]
  = inl (Py.KeyError "post").
Proof.
  exact (proj1 (main_model_rejects_examples two_tokens
                  [("instruction", Py.VStr "i1"); ("content", Py.VStr "0")]
                  (Py.VStr "i1") (Py.VStr "A") eq_refl eq_refl)).
Defined.
